(** * marker: the high-quality text processor and two schema blocks

    A shallow embedding of
    - [marker/processors/high_quality_text.py] (class
      [HighQualityTextProcessor]),
    - [marker/schema/blocks/caption.py] and
      [marker/schema/blocks/handwriting.py],
    followed by the properties established about them.

    Python [str] is [string], Python [int] is [Z], a [dict] with string
    keys is a [gmap string _], a Python list is a [list]; the JSON values
    of arbitrary shape that [json.loads] can return are [AnyJson.PyValue].  Effects on the
    outside world (calls to the model service, [time.sleep], [print]) are
    recorded in an event log that the functions return next to their
    result. *)

From Stdlib Require Import ZArith Ascii String List Lia.
From stdpp Require Import base option list gmap strings.

Set Warnings "-register-all".

Local Open Scope string_scope.
Local Open Scope Z_scope.
Local Open Scope list_scope.

(** ** Python string helpers *)

Module Py.

(** The one-character string ["\n"]. *)
Definition nl_char : ascii := "010"%char.
Definition NL : string := String nl_char EmptyString.

(** [s.replace(old, new)] for one-character [old] and [new]. *)
Fixpoint replace (s : string) (old new : ascii) : string :=
  match s with
  | EmptyString => EmptyString
  | String c s' =>
      String (if Ascii.eqb c old then new else c) (replace s' old new)
  end.

(** [s.endswith("\n")]. *)
Fixpoint endswith_nl (s : string) : bool :=
  match s with
  | EmptyString => false
  | String c EmptyString => Ascii.eqb c nl_char
  | String _ s' => endswith_nl s'
  end.

(** Truth value of a [str]: non-empty. *)
Definition truthy (s : string) : bool :=
  match s with EmptyString => false | String _ _ => true end.

(** ["\n" in s]. *)
Fixpoint contains_nl (s : string) : bool :=
  match s with
  | EmptyString => false
  | String c s' => Ascii.eqb c nl_char || contains_nl s'
  end.

End Py.

(** ** The markup tree of the [bs4] library

    [text_to_spans] walks the tree that [BeautifulSoup(text, 'html.parser')]
    returns.  The tree type and the four accessors the processor uses
    ([descendants], [parents], [name], [get_text], [string]) are modelled
    here. *)

Module Bs4.

(** A node of the tree.  [Comment] stands for the [NavigableString]
    subclasses that [get_text] leaves out. *)
Inductive PageElement : Type :=
| NavigableString (s : string)
| Comment (s : string)
| Tag (name : string) (contents : list PageElement).

(** The [BeautifulSoup] object is the root tag; it is represented by the
    list of its [contents]. Its [name] is ["[document]"]. *)
Definition Soup : Type := list PageElement.
Definition document_name : string := "[document]".

(** [element.name]: [None] on strings. *)
Definition name (e : PageElement) : option string :=
  match e with
  | Tag n _ => Some n
  | _ => None
  end.

(** [element.get_text()]: the text strings below the element, in document
    order, joined. *)
Fixpoint get_text (e : PageElement) : string :=
  match e with
  | NavigableString s => s
  | Comment _ => EmptyString
  | Tag _ cs => String.concat EmptyString (List.map get_text cs)
  end.

(** [element.string]: a string is its own [.string]; a tag has one only
    when it has exactly one child, and then it is that child's. *)
Fixpoint string_of (e : PageElement) : option string :=
  match e with
  | NavigableString s => Some s
  | Comment s => Some s
  | Tag _ [c] => string_of c
  | Tag _ _ => None
  end.

(** An element reached by [soup.descendants], together with
    [list(element.parents)] given as the names of its ancestors, nearest
    first; the last one is the [BeautifulSoup] object. *)
Definition Located : Type := (list string * PageElement)%type.

(** Pre-order walk below an element whose ancestors are [parents]. *)
Fixpoint walk (parents : list string) (e : PageElement) : list Located :=
  (parents, e) ::
  match e with
  | Tag n cs => List.flat_map (walk (n :: parents)) cs
  | _ => []
  end.

(** [soup.descendants]. *)
Definition descendants (soup : Soup) : list Located :=
  List.flat_map (walk [document_name]) soup.

(** *** The tree builder on plain tag/text input

    [html_parser] follows what [BeautifulSoup(text, 'html.parser')] builds
    for input made of character data and well nested [<name>] ...
    [</name>] pairs whose names are lower-case letters.  Everything else
    (attributes, character references, comments, void or raw-text
    elements, unbalanced tags) is outside this model and yields [None]. *)

Inductive Token : Type :=
| StartTag (n : string)
| EndTag (n : string)
| Data (s : string).

Inductive Mode : Type :=
| InData (acc : string)
| InOpen
| InStart (acc : string)
| InEnd (acc : string).

Definition is_lower (c : ascii) : bool :=
  let n := nat_of_ascii c in (97 <=? n)%nat && (n <=? 122)%nat.

(** Tag names the library treats specially (void elements, raw text,
    preserved white space, string containers such as the ruby
    annotations [rt] and [rp]). *)
Definition special_names : list string :=
  ["area"; "base"; "br"; "col"; "embed"; "hr"; "img"; "input"; "keygen";
   "link"; "menuitem"; "meta"; "param"; "source"; "track"; "wbr";
   "basefont"; "bgsound"; "command"; "frame"; "image"; "isindex";
   "nextid"; "spacer"; "script"; "style"; "textarea"; "title";
   "plaintext"; "xmp"; "iframe"; "noembed"; "noframes"; "noscript";
   "pre"; "template"; "rt"; "rp"].

Definition plain_name (n : string) : bool :=
  Py.truthy n && negb (existsb (String.eqb n) special_names).

Definition snoc (s : string) (c : ascii) : string :=
  s +:+ String c EmptyString.

Definition flush (acc : string) (rest : list Token) : list Token :=
  if Py.truthy acc then Data acc :: rest else rest.

Fixpoint lex (m : Mode) (s : string) : option (list Token) :=
  match s with
  | EmptyString =>
      match m with
      | InData acc => Some (flush acc [])
      | _ => None
      end
  | String c s' =>
      match m with
      | InData acc =>
          if Ascii.eqb c "<" then flush acc <$> lex InOpen s'
          else if Ascii.eqb c "&" then None
          else lex (InData (snoc acc c)) s'
      | InOpen =>
          if Ascii.eqb c "/" then lex (InEnd EmptyString) s'
          else if is_lower c then lex (InStart (String c EmptyString)) s'
          else None
      | InStart acc =>
          if Ascii.eqb c ">" then
            if plain_name acc
            then cons (StartTag acc) <$> lex (InData EmptyString) s'
            else None
          else if is_lower c then lex (InStart (snoc acc c)) s'
          else None
      | InEnd acc =>
          if Ascii.eqb c ">" then
            if plain_name acc
            then cons (EndTag acc) <$> lex (InData EmptyString) s'
            else None
          else if is_lower c then lex (InEnd (snoc acc c)) s'
          else None
      end
  end.

(** The builder's [ASCII_SPACES]. *)
Definition is_ascii_space (c : ascii) : bool :=
  existsb (Nat.eqb (nat_of_ascii c)) [32; 10; 9; 12; 13]%nat.

Fixpoint all_ascii_space (s : string) : bool :=
  match s with
  | EmptyString => true
  | String c s' => is_ascii_space c && all_ascii_space s'
  end.

(** [endData]: a run of character data made only of ASCII white space is
    stored as one newline or one space. *)
Definition end_data (s : string) : string :=
  if all_ascii_space s then
    if Py.contains_nl s then Py.NL else " "
  else s.

(** The open tags, innermost first, each with the children its parent had
    collected before it opened. *)
Fixpoint build (toks : list Token) (stack : list (string * Soup))
    (cur : Soup) : option Soup :=
  match toks with
  | [] => match stack with [] => Some cur | _ => None end
  | Data s :: toks' =>
      build toks' stack (cur ++ [NavigableString (end_data s)])
  | StartTag n :: toks' => build toks' ((n, cur) :: stack) []
  | EndTag n :: toks' =>
      match stack with
      | (m, up) :: stack' =>
          if String.eqb m n then build toks' stack' (up ++ [Tag n cur])
          else None
      | [] => None
      end
  end.

Definition html_parser (text : string) : option Soup :=
  toks ← lex (InData EmptyString) text; build toks [] [].

(** A parser [BS] agrees with the model wherever the model is defined. *)
Definition agrees (BS : string -> Soup) : Prop :=
  forall text soup, html_parser text = Some soup -> BS text = soup.

(** The model completed into a total function (an empty document where
    the model is undefined); used to instantiate [agrees]. *)
Definition html_parser_or_empty (text : string) : Soup :=
  default [] (html_parser text).

End Bs4.

Import Bs4.

(** ** External collaborators

    The page geometry and raster primitives that [extract_image] chains
    ([polygon.rescale], [.expand], [.bbox], [image.crop]) belong to the
    document tree and the imaging library; they are an interface here. *)

Class Geometry : Type := {
  Polygon : Type;
  Image : Type;
  Size : Type;
  BBox : Type;
  Ratio : Type;
  polygon_size : Polygon -> Size;
  image_size : Image -> Size;
  rescale : Polygon -> Size -> Size -> Polygon;
  expand : Polygon -> Ratio -> Ratio -> Polygon;
  bbox : Polygon -> BBox;
  crop : Image -> BBox -> Image;
  (** the default margin [0.01] of [extract_image] *)
  one_percent : Ratio
}.

(** A parsed response of the contracted shape. The shape contract sent
    with each request asks for an object whose properties are arrays of
    strings; the definitions of the processor below take [json.loads]
    results at that shape, and the module [AnyJson] further down follows
    the same code on every JSON value. The empty dict [{}] is [∅]. *)
Abbreviation Response := (gmap string (list string)).

(** ** The processor *)

Section Processor.

Context `{Geometry}.

(** *** Document tree *)

(** Identity of a block registered with a page. *)
Definition BlockId : Type := nat.

(** The [Span] block, with the fields the processor sets. *)
Record Span : Type := SpanClass {
  polygon : Polygon;
  text : string;
  font : string;
  font_weight : Z;
  font_size : Z;
  minimum_position : Z;
  maximum_position : Z;
  formats : list string;
  page_id : Z;
  text_extraction_method : string
}.

(** A [Line] block: its geometry, its page and the identities of its
    children. *)
Record Line : Type := mkLine {
  line_polygon : Polygon;
  line_page_id : Z;
  structure : list BlockId
}.

(** The block handed to [process_block_rewriting]; only its polygon is
    read ([extract_image]). *)
Record Block : Type := mkBlock {
  block_polygon : Polygon
}.

(** A page: its polygon, its low-resolution raster and the spans
    registered with it. *)
Record PageGroup : Type := mkPage {
  page_polygon : Polygon;
  lowres_image : Image;
  children : list Span
}.

(** Modelled from the spec: [PageGroup.add_full_block], defined in
    [marker/schema/groups/page.py].  The spec says that it registers the new Span
    with the owning page, which allocates its identity, and that the
    identity is what the caller appends to the Line's child list.  The
    identity allocated here is the position of the block among the
    page's registered blocks. *)
Definition add_full_block (page : PageGroup) (block : Span)
    : PageGroup * BlockId :=
  (mkPage (page_polygon page) (lowres_image page) (children page ++ [block]),
   length (children page)).

(** *** The model service *)

(** [response_schema]: the shape contract sent with each request. *)
Inductive Schema : Type :=
| SchemaObject (required : list string) (properties : list (string * Schema))
| SchemaArray (items : Schema)
| SchemaString.

(** The arguments of [model.generate_content]. *)
Record Request : Type := mkRequest {
  req_prompt : string;
  req_image : Image;
  req_temperature : Z;
  req_response_schema : Schema;
  req_response_mime_type : string;
  req_timeout : Z
}.

(** What one invocation does: it returns the text of the first part of
    the first candidate, or raises [ResourceExhausted], or raises any
    other [Exception]. *)
Inductive Outcome : Type :=
| Text (output : string)
| RaiseResourceExhausted
| RaiseException.


(** Effects on the outside world, in the order they happen. *)
Inductive Event : Type :=
| Configure (api_key : string)
| GenerativeModel (model_name : string)
| GenerateContent (req : Request)
| Print
| Sleep (seconds : Z).

(** [service n req]: the outcome of the [n]-th invocation (from 0) of
    [model.generate_content] within one call of [generate]. *)
Variable service : nat -> Request -> Outcome.

(** [json.loads]; [None] when it raises. *)
Variable json_loads : string -> option Response.

(** [json.dumps({"extracted_lines": lines}, indent=2)]. *)
Variable json_dumps : list string -> string.

(** [BeautifulSoup(text, 'html.parser')]. *)
Variable BeautifulSoup : string -> Soup.

(** [line.formatted_text(document)]. *)
Variable formatted_text : PageGroup -> Line -> string.

(** *** Attributes and construction *)

(** The attributes of the processor once [BaseProcessor.__init__] has
    applied the configuration over the class defaults. *)
Record Attributes : Type := mkAttributes {
  google_api_key : option string;
  model_name : string;
  high_quality : bool;
  max_retries : Z;
  max_concurrency : Z;
  timeout : Z;
  gemini_rewriting_prompt : string
}.

Record HighQualityTextProcessor : Type := mkProcessor {
  attrs : Attributes;
  (** [self.model]: [None], or the handle made by
      [genai.GenerativeModel(model_name)] *)
  model : option string
}.

Inductive Raised : Type :=
| ValueError (msg : string).

Definition __init__ (a : Attributes)
    : list Event * (Raised + HighQualityTextProcessor) :=
  if negb (high_quality a) then ([], inr (mkProcessor a None))
  else
    match google_api_key a with
    | None => ([], inl (ValueError "Google API key is not set"))
    | Some key =>
        ([Configure key; GenerativeModel (model_name a)],
         inr (mkProcessor a (Some (model_name a))))
    end.

(** *** generate *)

(** The [while] loop of [generate]. [tries] is the loop variable, [calls]
    counts the invocations made so far, [log] collects the effects. One
    unit of [fuel] is spent per evaluation of the loop condition. On a
    processor without a model, [self.model.generate_content] raises on the
    attribute access, before anything is sent; that is an [Exception] like
    any other. *)
Fixpoint generate_loop (self : HighQualityTextProcessor) (req : Request)
    (fuel : nat) (tries : Z) (calls : nat) (log : list Event)
    : option (Response * list Event) :=
  match fuel with
  | O => None
  | S fuel' =>
      if tries <? max_retries (attrs self) then
        match model self with
        | None => Some (∅, log ++ [Print])
        | Some _ =>
            let log := log ++ [GenerateContent req] in
            match service calls req with
            | Text output =>
                match json_loads output with
                | Some parsed => Some (parsed, log)
                | None => Some (∅, log ++ [Print])
                end
            | RaiseResourceExhausted =>
                let tries := tries + 1 in
                let wait_time := tries * 2 in
                generate_loop self req fuel' tries (S calls)
                  (log ++ [Print; Sleep wait_time])
            | RaiseException => Some (∅, log ++ [Print])
            end
        end
      else Some (∅, log)
  end.

Definition generate (self : HighQualityTextProcessor) (prompt : string)
    (image : Image) (response_schema : Schema)
    : option (Response * list Event) :=
  let req := mkRequest prompt image 0 response_schema "application/json"
               (timeout (attrs self)) in
  generate_loop self req (S (Z.to_nat (max_retries (attrs self)))) 0 0 [].

(** *** text_to_spans *)

Definition tag_types : gmap string string :=
  {[ "b" := "bold"; "i" := "italic"; "math" := "math" ]}.

(** The dicts [{'type': ..., 'content': ...}]. *)
Record SpanDict : Type := mkSpanDict {
  span_type : string;
  span_content : string
}.

(** One iteration of the loop over [soup.descendants]. *)
Definition visit (spans : list SpanDict) (el : Located) : list SpanDict :=
  let '(parents, element) := el in
  if negb (length parents =? 1)%nat then spans
  else
    match name element ≫= (tag_types !!.) with
    | Some ty => spans ++ [mkSpanDict ty (get_text element)]
    | None =>
        match string_of element with
        | Some s =>
            if Py.truthy s then spans ++ [mkSpanDict "plain" s] else spans
        | None => spans
        end
    end.

Definition text_to_spans (text : string) : list SpanDict :=
  let soup := BeautifulSoup text in
  fold_left visit (descendants soup) [].

(** *** extract_image *)

Definition extract_image (page : PageGroup) (image_block : Block)
    (expand_by : Ratio) : Image :=
  let page_img := lowres_image page in
  let image_box :=
    expand
      (rescale (block_polygon image_block)
         (polygon_size (page_polygon page)) (image_size page_img))
      expand_by expand_by in
  crop page_img (bbox image_box).

(** *** process_block_rewriting *)

Definition response_schema : Schema :=
  SchemaObject ["corrected_lines"]
    [("corrected_lines", SchemaArray SchemaString)].

(** The loop over [enumerate(corrected_spans)]; [n_spans] is
    [len(corrected_spans)]. *)
Fixpoint synthesize_spans (n_spans : nat) (span_idx : nat)
    (corrected_spans : list SpanDict) (page : PageGroup) (text_line : Line)
    : PageGroup * Line :=
  match corrected_spans with
  | [] => (page, text_line)
  | span :: rest =>
      let span :=
        if Z.of_nat span_idx =? Z.of_nat n_spans - 1
        then mkSpanDict (span_type span) (span_content span +:+ Py.NL)
        else span in
      let '(page, id) :=
        add_full_block page
          (SpanClass (line_polygon text_line) (span_content span) "Unknown"
             0 0 0 0 [span_type span] (line_page_id text_line) "gemini") in
      let text_line :=
        mkLine (line_polygon text_line) (line_page_id text_line)
          (structure text_line ++ [id]) in
      synthesize_spans n_spans (S span_idx) rest page text_line
  end.

(** The loop over [zip(text_lines, corrected_lines)]. The Line objects are
    carried as the ordered list that [contained_blocks] returned; a Line
    changed in place is changed at its position. *)
Fixpoint reconcile_lines (page : PageGroup) (text_lines : list Line)
    (corrected_lines : list string) : PageGroup * list Line :=
  match text_lines, corrected_lines with
  | text_line :: text_lines', corrected_text :: corrected_lines' =>
      let text_line :=
        mkLine (line_polygon text_line) (line_page_id text_line) [] in
      let corrected_spans := text_to_spans corrected_text in
      let '(page, text_line) :=
        synthesize_spans (length corrected_spans) 0 corrected_spans
          page text_line in
      let '(page, rest) := reconcile_lines page text_lines' corrected_lines' in
      (page, text_line :: rest)
  | _, _ => (page, text_lines)
  end.

(** Truth value of a list: non-empty. *)
Definition nonempty {A : Type} (l : list A) : bool :=
  match l with [] => false | _ :: _ => true end.

(** The prompt sent for a block: the instructions followed by the
    serialized request payload. *)
Definition rewriting_prompt (self : HighQualityTextProcessor)
    (extracted_lines : list string) : string :=
  gemini_rewriting_prompt (attrs self) +:+ "```json" +:+ Py.NL +:+ "`"
  +:+ json_dumps extracted_lines +:+ "`" +:+ Py.NL +:+ "```" +:+ Py.NL.

(** [text_lines] is [block.contained_blocks(document, (BlockTypes.Line,))].
    The result is the event log, the page and the Lines after the call.
    The response is one of the contracted shape, on which nothing raises;
    [AnyJson.process_block_rewriting] follows the same lines on every JSON
    value. *)
Definition process_block_rewriting (self : HighQualityTextProcessor)
    (page : PageGroup) (block : Block) (text_lines : list Line)
    : option (list Event * PageGroup * list Line) :=
  let extracted_lines := List.map (formatted_text page) text_lines in
  let prompt := rewriting_prompt self extracted_lines in
  let image := extract_image page block one_percent in
  '(response, log) ← generate self prompt image response_schema;
  let corrected_lines :=
    if negb (bool_decide (response = ∅)) then
      match response !! "corrected_lines" with
      | Some lines => lines
      | None => []
      end
    else [] in
  if nonempty corrected_lines
     && (length corrected_lines =? length extracted_lines)%nat
  then
    let '(page, text_lines) :=
      reconcile_lines page text_lines corrected_lines in
    Some (log, page, text_lines)
  else Some (log, page, text_lines).

(** *** __call__ *)

Section Call.

(** [rewrite_blocks] hands one [process_block_rewriting] per eligible
    block to a thread pool; the dispatch is kept abstract. *)
Context {Document : Type}.
Variable rewrite_blocks :
  HighQualityTextProcessor -> Document -> list Event * Document.

Definition __call__ (self : HighQualityTextProcessor) (document : Document)
    : list Event * Document :=
  if negb (high_quality (attrs self))
     || negb (bool_decide (is_Some (model self)))
  then ([], document)
  else rewrite_blocks self document.

End Call.

End Processor.

(** ** The Caption and Handwriting blocks

    Both override [assemble_html]; [super().assemble_html] is the method of
    [Block], which assembles the children's text. *)

Module Caption.
Section AssembleHtml.
Context {Document ChildBlocks ParentStructure : Type}.
Variable super_assemble_html :
  Document -> ChildBlocks -> ParentStructure -> string.

Definition assemble_html (document : Document)
    (child_blocks : ChildBlocks) (parent_structure : ParentStructure)
    : string :=
  let template :=
    super_assemble_html document child_blocks parent_structure in
  let template := Py.replace template Py.nl_char " "%char in
  "<p>" +:+ template +:+ "</p>".
End AssembleHtml.
End Caption.

Module Handwriting.
Section AssembleHtml.
Context {Document ChildBlocks ParentStructure : Type}.
Variable super_assemble_html :
  Document -> ChildBlocks -> ParentStructure -> string.

Definition assemble_html (document : Document)
    (child_blocks : ChildBlocks) (parent_structure : ParentStructure)
    : string :=
  let template :=
    super_assemble_html document child_blocks parent_structure in
  let template := Py.replace template Py.nl_char " "%char in
  "<p>" +:+ template +:+ "</p>".
End AssembleHtml.
End Handwriting.

(** ** Runs on any JSON value

    [json.loads] returns whatever JSON value the payload holds: an object,
    but also an array, a string, a number, a boolean or null. The
    definitions of the processor above take the parsed response at the
    shape the contract asks for. This module follows [generate] and
    [process_block_rewriting] on every JSON value, with the exceptions the
    Python operations of lines 164-170 raise on the other shapes. *)

Module AnyJson.

(** The value of a Python [float]: a finite one is [m * 2 ^ e]. *)
Inductive PyFloatValue : Type :=
| Finite (m e : Z)
| Infinity (negative : bool)
| NaN.

(** The Python values [json.loads] can return. A [PyDict] lists the items
    of the dict in insertion order; its keys are distinct. *)
Inductive PyValue : Type :=
| PyNone
| PyBool (b : bool)
| PyInt (n : Z)
| PyFloat (x : PyFloatValue)
| PyStr (s : string)
| PyList (items : list PyValue)
| PyDict (items : list (string * PyValue)).

Inductive Exn : Type :=
| TypeError
| KeyError
| ParserError.

(** How a call ends. *)
Inductive Completion : Type :=
| Returned
| Raised (e : Exn).

(** Truth value of a Python value. *)
Definition truthy (v : PyValue) : bool :=
  match v with
  | PyNone => false
  | PyBool b => b
  | PyInt n => negb (n =? 0)
  | PyFloat (Finite m _) => negb (m =? 0)
  | PyFloat _ => true
  | PyStr s => Py.truthy s
  | PyList items => nonempty items
  | PyDict items => nonempty items
  end.

(** The value stored under [key], if any. *)
Fixpoint dict_get (items : list (string * PyValue)) (key : string)
    : option PyValue :=
  match items with
  | [] => None
  | (k, v) :: items' => if String.eqb k key then Some v else dict_get items' key
  end.

Fixpoint is_prefix (p s : string) : bool :=
  match p, s with
  | EmptyString, _ => true
  | String a p', String b s' => Ascii.eqb a b && is_prefix p' s'
  | String _ _, EmptyString => false
  end.

(** [p in s] for two strings. *)
Fixpoint is_substring (p s : string) : bool :=
  is_prefix p s
  || match s with
     | EmptyString => false
     | String _ s' => is_substring p s'
     end.

(** [v == key] for a string [key]. *)
Definition equals_str (key : string) (v : PyValue) : bool :=
  match v with
  | PyStr s => String.eqb s key
  | _ => false
  end.

(** [key in v]. *)
Definition contains (key : string) (v : PyValue) : Exn + bool :=
  match v with
  | PyStr s => inr (is_substring key s)
  | PyList items => inr (existsb (equals_str key) items)
  | PyDict items => inr (bool_decide (is_Some (dict_get items key)))
  | PyNone | PyBool _ | PyInt _ | PyFloat _ => inl TypeError
  end.

(** [v[key]] for a string [key]. *)
Definition getitem (v : PyValue) (key : string) : Exn + PyValue :=
  match v with
  | PyDict items =>
      match dict_get items key with
      | Some x => inr x
      | None => inl KeyError
      end
  | _ => inl TypeError
  end.

Section Processor.

Context `{Geometry}.

Variable service : nat -> Request -> Outcome.

(** [json.loads]; [None] when it raises. *)
Variable json_loads : string -> option PyValue.

Variable json_dumps : list string -> string.

(** [BeautifulSoup(text, 'html.parser')] on a [str]. *)
Variable BeautifulSoup : string -> Soup.

(** [BeautifulSoup(v, 'html.parser')] on a value that is not a [str]: the
    tree it builds, or [None] when it raises. *)
Variable parse_other : PyValue -> option Soup.

(** The characters of a [str], each as a one-character [str]. *)
Variable code_points : string -> list string.

Variable formatted_text : PageGroup -> Line -> string.

(** [len(v)]. *)
Definition len (v : PyValue) : Exn + nat :=
  match v with
  | PyStr s => inr (length (code_points s))
  | PyList items => inr (length items)
  | PyDict items => inr (length items)
  | PyNone | PyBool _ | PyInt _ | PyFloat _ => inl TypeError
  end.

(** What iterating over [v] yields: the characters of a string, the
    entries of a list, the keys of a dict. *)
Definition iterate (v : PyValue) : list PyValue :=
  match v with
  | PyStr s => PyStr <$> code_points s
  | PyList items => items
  | PyDict items => (fun kv => PyStr kv.1) <$> items
  | PyNone | PyBool _ | PyInt _ | PyFloat _ => []
  end.

(** The [while] loop of [generate], as in [generate_loop] above, with the
    parsed payload returned as it is. *)
Fixpoint generate_loop (self : HighQualityTextProcessor) (req : Request)
    (fuel : nat) (tries : Z) (calls : nat) (log : list Event)
    : option (PyValue * list Event) :=
  match fuel with
  | O => None
  | S fuel' =>
      if tries <? max_retries (attrs self) then
        match model self with
        | None => Some (PyDict [], log ++ [Print])
        | Some _ =>
            let log := log ++ [GenerateContent req] in
            match service calls req with
            | Text output =>
                match json_loads output with
                | Some parsed => Some (parsed, log)
                | None => Some (PyDict [], log ++ [Print])
                end
            | RaiseResourceExhausted =>
                let tries := tries + 1 in
                let wait_time := tries * 2 in
                generate_loop self req fuel' tries (S calls)
                  (log ++ [Print; Sleep wait_time])
            | RaiseException => Some (PyDict [], log ++ [Print])
            end
        end
      else Some (PyDict [], log)
  end.

Definition generate (self : HighQualityTextProcessor) (prompt : string)
    (image : Image) (response_schema : Schema)
    : option (PyValue * list Event) :=
  let req := mkRequest prompt image 0 response_schema "application/json"
               (timeout (attrs self)) in
  generate_loop self req (S (Z.to_nat (max_retries (attrs self)))) 0 0 [].

(** [text_to_spans] on any value: [None] when the parser raises. *)
Definition text_to_spans (v : PyValue) : option (list SpanDict) :=
  match v with
  | PyStr text => Some (text_to_spans BeautifulSoup text)
  | _ => (fun soup => fold_left visit (descendants soup) []) <$> parse_other v
  end.

(** The loop over [zip(text_lines, corrected_lines)]. When
    [text_to_spans] raises, the Line at hand has already lost its child
    list and the Lines after it are as they were. *)
Fixpoint reconcile_lines (page : PageGroup) (text_lines : list Line)
    (corrected_lines : list PyValue)
    : PageGroup * list Line * Completion :=
  match text_lines, corrected_lines with
  | text_line :: text_lines', corrected_text :: corrected_lines' =>
      let text_line :=
        mkLine (line_polygon text_line) (line_page_id text_line) [] in
      match text_to_spans corrected_text with
      | None => (page, text_line :: text_lines', Raised ParserError)
      | Some corrected_spans =>
          let '(page, text_line) :=
            synthesize_spans (length corrected_spans) 0 corrected_spans
              page text_line in
          let '(page, rest, completion) :=
            reconcile_lines page text_lines' corrected_lines' in
          (page, text_line :: rest, completion)
      end
  | _, _ => (page, text_lines, Returned)
  end.

(** Lines 163-165: the value bound to [corrected_lines]. *)
Definition corrected_lines_of (response : PyValue) : Exn + PyValue :=
  if truthy response then
    match contains "corrected_lines" response with
    | inl e => inl e
    | inr true => getitem response "corrected_lines"
    | inr false => inr (PyList [])
    end
  else inr (PyList []).

(** The result is the event log, the page and the Lines after the call,
    and how the call ended. *)
Definition process_block_rewriting (self : HighQualityTextProcessor)
    (page : PageGroup) (block : Block) (text_lines : list Line)
    : option (list Event * PageGroup * list Line * Completion) :=
  let extracted_lines := List.map (formatted_text page) text_lines in
  let prompt := rewriting_prompt json_dumps self extracted_lines in
  let image := extract_image page block one_percent in
  '(response, log) ← generate self prompt image response_schema;
  match corrected_lines_of response with
  | inl e => Some (log, page, text_lines, Raised e)
  | inr corrected_lines =>
      if truthy corrected_lines then
        match len corrected_lines with
        | inl e => Some (log, page, text_lines, Raised e)
        | inr n =>
            if (n =? length extracted_lines)%nat then
              let '(page, text_lines, completion) :=
                reconcile_lines page text_lines (iterate corrected_lines) in
              Some (log, page, text_lines, completion)
            else Some (log, page, text_lines, Returned)
        end
      else Some (log, page, text_lines, Returned)
  end.

(** The responses for which no reconciliation takes place and nothing is
    raised, for a block with [n] extracted lines: a falsy value; an object
    without the field; a string that does not contain the key; an array
    without an entry equal to the key; an object whose field is falsy or
    has a length other than [n]. *)
Inductive Unaccepted (n : nat) : PyValue -> Prop :=
| falsy_response v :
    truthy v = false -> Unaccepted n v
| object_without_field items :
    dict_get items "corrected_lines" = None -> Unaccepted n (PyDict items)
| string_without_key s :
    is_substring "corrected_lines" s = false -> Unaccepted n (PyStr s)
| array_without_key items :
    Forall (fun v => v <> PyStr "corrected_lines") items ->
    Unaccepted n (PyList items)
| object_with_falsy_field items v :
    dict_get items "corrected_lines" = Some v ->
    truthy v = false -> Unaccepted n (PyDict items)
| object_with_other_length items v m :
    dict_get items "corrected_lines" = Some v ->
    len v = inr m -> m <> n -> Unaccepted n (PyDict items).



End Processor.

End AnyJson.

(** ** Notions used to state the properties *)

Section Observations.

Context `{Geometry}.

(** What a direct child of the root contributes to [text_to_spans]. *)
Definition top_level_spans (e : PageElement) : list SpanDict :=
  visit [] ([document_name], e).

(** The fragment an element without a registered tag name yields. *)
Definition plain_spans (e : PageElement) : list SpanDict :=
  match string_of e with
  | Some s => if Py.truthy s then [mkSpanDict "plain" s] else []
  | None => []
  end.

(** The texts of the spans a Line refers to, in order; [None] for an
    identity that the page does not know. *)
Definition span_texts (page : PageGroup) (line : Line)
    : list (option string) :=
  (fun id => text <$> children page !! id) <$> structure line.

(** The Span synthesized for fragment [span_idx] of [n_spans] of a Line. *)
Definition synthesized (line : Line) (n_spans span_idx : nat)
    (f : SpanDict) : Span :=
  SpanClass (line_polygon line)
    (if Z.of_nat span_idx =? Z.of_nat n_spans - 1
     then span_content f +:+ Py.NL else span_content f)
    "Unknown" 0 0 0 0 [span_type f] (line_page_id line) "gemini".

(** The Spans synthesized for the fragments of a Line from [span_idx]
    on. *)
Fixpoint synthesized_from (line : Line) (n_spans span_idx : nat)
    (fs : list SpanDict) : list Span :=
  match fs with
  | [] => []
  | f :: fs' =>
      synthesized line n_spans span_idx f
      :: synthesized_from line n_spans (S span_idx) fs'
  end.

(** The Spans added for a whole block, Line after Line, when the corrected
    lines are parsed by [BeautifulSoup]. *)
Fixpoint synthesized_lines (BeautifulSoup : string -> Soup)
    (text_lines : list Line) (corrected_lines : list string) : list Span :=
  match text_lines, corrected_lines with
  | line :: text_lines', corrected_text :: corrected_lines' =>
      let fs := text_to_spans BeautifulSoup corrected_text in
      synthesized_from line (length fs) 0 fs
      ++ synthesized_lines BeautifulSoup text_lines' corrected_lines'
  | _, _ => []
  end.

(** A Span with the fixed metadata of a synthesized one, for a given Line
    and fragment type. *)
Definition synthetic_for (line : Line) (ty : string) (s : Span) : Prop :=
  polygon s = line_polygon line
  /\ page_id s = line_page_id line
  /\ font s = "Unknown"
  /\ font_weight s = 0
  /\ font_size s = 0
  /\ minimum_position s = 0
  /\ maximum_position s = 0
  /\ formats s = [ty]
  /\ text_extraction_method s = "gemini".

(** The log of [k] consecutive rate-limited attempts, the first of them
    made with loop variable [tries]. *)
Fixpoint backoff_log (req : Request) (tries : Z) (k : nat) : list Event :=
  match k with
  | O => []
  | S k' =>
      [GenerateContent req; Print; Sleep ((tries + 1) * 2)]
      ++ backoff_log req (tries + 1) k'
  end.

(** The request [generate] sends. *)
Definition request_of (self : HighQualityTextProcessor) (prompt : string)
    (image : Image) (schema : Schema) : Request :=
  mkRequest prompt image 0 schema "application/json" (timeout (attrs self)).

(** A failure of one attempt that is not a rate-limit failure: the
    invocation raises another exception, or its payload does not parse. *)
Definition other_failure (json_loads : string -> option Response)
    (o : Outcome) : Prop :=
  match o with
  | RaiseException => True
  | Text output => json_loads output = None
  | RaiseResourceExhausted => False
  end.

(** The seconds slept, in order. *)
Definition sleeps (log : list Event) : list Z :=
  omap (fun e => match e with Sleep z => Some z | _ => None end) log.

(** The number of model invocations. *)
Definition invocations (log : list Event) : nat :=
  length
    (List.filter
       (fun e => match e with GenerateContent _ => true | _ => false end)
       log).

(** The fragment of one direct child of the root, written out case by
    case: a tag with a registered name gives one fragment of the
    registered type holding all the text below the tag; any other tag
    gives one plain fragment holding its [.string] when it has one that is
    not empty; a text node gives one plain fragment holding its text when
    that is not empty; nothing else is given. *)
Definition child_fragment (e : PageElement) : list SpanDict :=
  match e with
  | Tag n cs =>
      match tag_types !! n with
      | Some ty =>
          [mkSpanDict ty (String.concat EmptyString (List.map get_text cs))]
      | None =>
          match string_of (Tag n cs) with
          | Some (String c s) => [mkSpanDict "plain" (String c s)]
          | _ => []
          end
      end
  | NavigableString (String c s) | Comment (String c s) =>
      [mkSpanDict "plain" (String c s)]
  | NavigableString EmptyString | Comment EmptyString => []
  end.

(** The values a fragment's ['type'] can take. *)
Definition fragment_types : list string :=
  ["plain"; "bold"; "italic"; "math"].

(** A direct child of the root that is a text node or a tag with a
    registered name. *)
Definition text_or_registered (e : PageElement) : Prop :=
  match e with
  | NavigableString _ => True
  | Comment _ => False
  | Tag n _ => is_Some (tag_types !! n)
  end.

(** The contents of a list of fragments, joined. *)
Definition joined_contents (fs : list SpanDict) : string :=
  String.concat EmptyString (List.map span_content fs).

(** An effect [generate] may have when it sends [req]: the request itself,
    a print or a sleep. *)
Definition effect_of_generate (req : Request) (e : Event) : Prop :=
  match e with
  | GenerateContent r => r = req
  | Print | Sleep _ => True
  | Configure _ | GenerativeModel _ => False
  end.

(** The linear backoff schedule: [2; 4; ...; 2 * m]. *)
Definition linear_schedule (m : nat) : list Z :=
  List.map (fun i => (Z.of_nat i + 1) * 2) (seq 0 m).

End Observations.

(** A geometry with one polygon and one image, for concrete runs. *)
Definition unit_geometry : Geometry :=
  {| Polygon := unit; Image := unit; Size := unit; BBox := unit;
     Ratio := unit;
     polygon_size := fun _ => tt; image_size := fun _ => tt;
     rescale := fun _ _ _ => tt; expand := fun _ _ _ => tt;
     bbox := fun _ => tt; crop := fun _ _ => tt; one_percent := tt |}.

(** Concrete inputs for the runs below. *)
Module Sample.

Definition attributes : Attributes :=
  mkAttributes (Some "key") "gemini-1.5-flash" true 3 3 60 "Correct: ".

Definition processor : HighQualityTextProcessor :=
  mkProcessor attributes (Some "gemini-1.5-flash").

Definition disabled : Attributes :=
  mkAttributes None "gemini-1.5-flash" false 3 3 60 "Correct: ".

Definition no_key : Attributes :=
  mkAttributes None "gemini-1.5-flash" true 3 3 60 "Correct: ".

Definition page : @PageGroup unit_geometry :=
  @mkPage unit_geometry tt tt [].

Definition block : @Block unit_geometry := @mkBlock unit_geometry tt.

Definition line : @Line unit_geometry := @mkLine unit_geometry tt 7 [].

(** One rate-limit failure, then another kind of failure. *)
Definition flaky_service (n : nat) (req : @Request unit_geometry)
    : Outcome :=
  match n with
  | O => RaiseResourceExhausted
  | S _ => RaiseException
  end.

(** A service that answers at once; the payload is parsed by
    [fixed_loads]. *)
Definition answering_service (n : nat) (req : @Request unit_geometry)
    : Outcome :=
  Text "payload".

Definition fixed_loads (r : Response) (output : string) : option Response :=
  Some r.

Definition never_loads (output : string) : option Response := None.

Definition dumps (lines : list string) : string :=
  String.concat "," lines.

(** Assembled child text with a line break inside: ["a\nb"]. *)
Definition two_rows : string := String "a" (Py.NL +:+ "b").

Definition assemble_two_rows (document child_blocks parent_structure : unit)
    : string := two_rows.

Definition assemble_one_row (document child_blocks parent_structure : unit)
    : string := "ab".

Definition line_text (p : @PageGroup unit_geometry)
    (l : @Line unit_geometry) : string := "a b".

(** The corrected line ["a\n<b>x</b>"]. *)
Definition two_fragments : string :=
  String "a" (Py.NL +:+ "<b>x</b>").

(** Responses: without the field, with an empty list, with one line. *)
Definition no_field : Response := ∅.
Definition no_lines : Response := {[ "corrected_lines" := [] ]}.
Definition one_line : Response := {[ "corrected_lines" := [two_fragments] ]}.

(** The request sent for a block whose extracted lines are [lines]. *)
Definition request (lines : list string) : @Request unit_geometry :=
  request_of (H := unit_geometry) processor
    (rewriting_prompt dumps processor lines) tt response_schema.

(** One rate-limit failure, then an answer. *)
Definition recovering_service (n : nat) (req : @Request unit_geometry)
    : Outcome :=
  match n with
  | O => RaiseResourceExhausted
  | S _ => Text "payload"
  end.

(** A processor that may not call the service at all. *)
Definition no_retries : HighQualityTextProcessor :=
  mkProcessor
    (mkAttributes (Some "key") "gemini-1.5-flash" true 0 3 60 "Correct: ")
    (Some "gemini-1.5-flash").

(** A page with one extracted Span and a Line that refers to it. *)
Definition old_span : @Span unit_geometry :=
  @SpanClass unit_geometry tt "old" "Times" 400 10 0 3 ["plain"] 7 "pdftext".

Definition old_page : @PageGroup unit_geometry :=
  @mkPage unit_geometry tt tt [old_span].

Definition old_line : @Line unit_geometry := @mkLine unit_geometry tt 7 [0%nat].

(** A response whose only corrected line is the empty string. *)
Definition one_empty_line : Response :=
  {[ "corrected_lines" := [EmptyString] ]}.

(** Inputs for the runs on any JSON value. *)

(** The characters of an ASCII string. *)
Definition ascii_points (s : string) : list string :=
  (fun c => String c EmptyString) <$> list_ascii_of_string s.

(** A parser that raises on everything that is not a [str]. *)
Definition parser_raises (v : AnyJson.PyValue) : option Soup := None.

Definition loads_value (v : AnyJson.PyValue) (output : string)
    : option AnyJson.PyValue := Some v.

(** The payloads [7] and [["corrected_lines"]]. *)
Definition seven : AnyJson.PyValue := AnyJson.PyInt 7.
Definition key_in_array : AnyJson.PyValue :=
  AnyJson.PyList [AnyJson.PyStr "corrected_lines"].

(** An object with the field, holding one line; the same value as
    [one_line]. *)
Definition one_line_value : AnyJson.PyValue :=
  AnyJson.PyDict
    [("corrected_lines", AnyJson.PyList [AnyJson.PyStr two_fragments])].

(** An object whose second corrected line is the number 7. *)
Definition mixed_items : list (string * AnyJson.PyValue) :=
  [("corrected_lines",
    AnyJson.PyList
      ((AnyJson.PyStr <$> ["<b>x</b>"])
       ++ AnyJson.PyInt 7 :: [AnyJson.PyStr "c"]))].

Definition second_line : @Line unit_geometry :=
  @mkLine unit_geometry tt 7 [0%nat].

Definition third_line : @Line unit_geometry :=
  @mkLine unit_geometry tt 7 [0%nat].

End Sample.

(** * Properties *)

(** ** The markup parser *)

Section MarkupParser.

Variable BeautifulSoup : string -> Soup.

(** Induction on markup trees, with the hypothesis on all children. *)
Lemma PageElement_forall_ind (P : PageElement -> Prop) :
  (forall s, P (NavigableString s)) ->
  (forall s, P (Comment s)) ->
  (forall n cs, Forall P cs -> P (Tag n cs)) ->
  forall e, P e.
Proof.
  intros Hs Hc Ht.
  fix IH 1.
  intros [s | s | n cs].
  - apply Hs.
  - apply Hc.
  - apply Ht. induction cs as [| c cs IHcs]; constructor.
    + apply IH.
    + exact IHcs.
Qed.

Lemma fold_visit (els : list Located) (spans : list SpanDict) :
  fold_left visit els spans = spans ++ List.flat_map (visit []) els.
Proof.
  revert spans. induction els as [| el els IH]; intros spans; simpl.
  - by rewrite app_nil_r.
  - rewrite IH. destruct el as [parents element].
    assert (visit spans (parents, element)
            = spans ++ visit [] (parents, element)) as ->.
    { unfold visit. destruct (negb _); [by rewrite app_nil_r |].
      destruct (name element ≫= _); [done |].
      destruct (string_of element) as [s |]; [| by rewrite app_nil_r].
      destruct (Py.truthy s); [done | by rewrite app_nil_r]. }
    by rewrite <- app_assoc.
Qed.

(** Below depth one nothing is appended. *)
Lemma nested_silent (e : PageElement) :
  forall parents, (2 <= length parents)%nat ->
  List.flat_map (visit []) (walk parents e) = [].
Proof.
  induction e as [s | s | n cs IH] using PageElement_forall_ind;
    intros parents Hlen.
  - simpl. destruct parents as [| ? [| ? ?]]; simpl in *; try lia. done.
  - simpl. destruct parents as [| ? [| ? ?]]; simpl in *; try lia. done.
  - cbn [walk List.flat_map].
    assert (visit [] (parents, Tag n cs) = []) as ->.
    { destruct parents as [| ? [| ? ?]]; simpl in *; try lia. done. }
    simpl. induction IH as [| c cs Hc _ IHcs]; [done |].
    simpl. rewrite flat_map_app, IHcs, app_nil_r.
    apply Hc. simpl. lia.
Qed.

Lemma walk_top_level (e : PageElement) :
  List.flat_map (visit []) (walk [document_name] e) = top_level_spans e.
Proof.
  destruct e as [s | s | n cs]; cbn [walk List.flat_map];
    rewrite ?app_nil_r; try done.
  fold (top_level_spans (Tag n cs)).
  assert (List.flat_map (visit [])
            (List.flat_map (walk [n; document_name]) cs) = []) as ->.
  { induction cs as [| c cs IHcs]; [done |].
    simpl. rewrite flat_map_app, IHcs, app_nil_r.
    apply nested_silent. simpl. lia. }
  by rewrite app_nil_r.
Qed.

(** The fragment list is made from the direct children of the root, one
    after the other. *)
Lemma text_to_spans_top_level (text : string) :
  text_to_spans BeautifulSoup text
  = List.flat_map top_level_spans (BeautifulSoup text).
Proof.
  unfold text_to_spans, descendants. rewrite fold_visit. simpl.
  induction (BeautifulSoup text) as [| e soup IH]; [done |].
  simpl. by rewrite flat_map_app, IH, walk_top_level.
Qed.

(** An element met by the walk is the starting element itself or lies
    strictly deeper. *)
Lemma walk_depth (e : PageElement) :
  forall parents parents' e',
  In (parents', e') (walk parents e) ->
  (parents' = parents /\ e' = e) \/ (length parents < length parents')%nat.
Proof.
  induction e as [s | s | n cs IH] using PageElement_forall_ind;
    intros parents parents' e' Hin; simpl in Hin.
  - destruct Hin as [[= <- <-] | []]. by left.
  - destruct Hin as [[= <- <-] | []]. by left.
  - destruct Hin as [[= <- <-] | Hin]; [by left |]. right.
    apply in_flat_map in Hin as (c & Hc & Hin).
    rewrite Forall_forall in IH.
    destruct (IH c (proj2 (list_elem_of_In _ _) Hc) _ _ _ Hin)
      as [[-> _] | Hlt]; simpl in *; lia.
Qed.

Lemma child_fragment_top_level (e : PageElement) :
  top_level_spans e = child_fragment e.
Proof.
  unfold top_level_spans, visit.
  cbn [length Nat.eqb negb app].
  destruct e as [[| c s] | [| c s] | n cs]; try done.
  cbn [name mbind option_bind child_fragment get_text].
  destruct (tag_types !! n); [done |].
  destruct (string_of (Tag n cs)) as [[| c s] |]; done.
Qed.

(** C4. Parsing ["<b>foo</b> <math>x=1</math> bar"], which the tree
    builder turns into the tag b around "foo", the text " ", the tag math
    around "x=1" and the text " bar", yields the four fragments bold
    "foo", plain " ", math "x=1", plain " bar" in this order. For every
    input, the fragment list is the concatenation, in order, of the
    fragments of the direct children of the root, each child giving one
    fragment at most and a tag giving it whatever markup is nested in it
    (so nested markup adds no fragment of its own and there are never more
    fragments than direct children); the only visited elements with a
    single parent are those direct children; and visiting an element with
    two or more parents leaves the fragment list as it is. *)
Theorem text_to_spans_example_and_depth :
  BeautifulSoup "<b>foo</b> <math>x=1</math> bar"
  = [Tag "b" [NavigableString "foo"]; NavigableString " ";
     Tag "math" [NavigableString "x=1"]; NavigableString " bar"] ->
  text_to_spans BeautifulSoup "<b>foo</b> <math>x=1</math> bar"
  = [mkSpanDict "bold" "foo"; mkSpanDict "plain" " ";
     mkSpanDict "math" "x=1"; mkSpanDict "plain" " bar"]
  /\ forall text,
       text_to_spans BeautifulSoup text
       = List.flat_map child_fragment (BeautifulSoup text)
       /\ (forall e, (length (child_fragment e) <= 1)%nat)
       /\ (length (text_to_spans BeautifulSoup text)
           <= length (BeautifulSoup text))%nat
       /\ forall parents element,
            In (parents, element) (descendants (BeautifulSoup text)) ->
            (length parents = 1%nat -> In element (BeautifulSoup text))
            /\ ((2 <= length parents)%nat ->
                forall spans, visit spans (parents, element) = spans).
Proof.
  intros Hparse.
  assert (forall e, (length (child_fragment e) <= 1)%nat) as Hone.
  { intros [[| c s] | [| c s] | n cs]; simpl; try lia.
    destruct (tag_types !! n); simpl; [lia |].
    destruct (match cs with [c] => string_of c | _ => None end)
      as [[| c s] |]; simpl; lia. }
  assert (forall text,
            text_to_spans BeautifulSoup text
            = List.flat_map child_fragment (BeautifulSoup text)) as Hflat.
  { intros text. rewrite text_to_spans_top_level.
    induction (BeautifulSoup text) as [| e soup IH]; [done |].
    simpl. by rewrite IH, child_fragment_top_level. }
  split.
  - rewrite Hflat, Hparse. vm_compute. reflexivity.
  - intros text. split; [apply Hflat |]. split; [exact Hone |]. split.
    + rewrite Hflat.
      induction (BeautifulSoup text) as [| e soup IH]; [done |].
      cbn [List.flat_map]. rewrite length_app. specialize (Hone e).
      simpl. lia.
    + intros parents element Hin. split.
      * intros Hdepth. unfold descendants in Hin.
        apply in_flat_map in Hin as (c & Hc & Hin).
        apply walk_depth in Hin as [[_ ->] | Hlt]; [done |].
        simpl in Hlt. lia.
      * intros Htwo spans. unfold visit.
        destruct parents as [| ? [| ? ?]]; simpl in *; try lia. done.
Qed.

(** C7, amended. A direct child of the root that is a tag with an
    unregistered name contributes, at its place in the output, one plain
    fragment holding its [.string] when that exists and is non-empty, and
    nothing otherwise; what it contributes never has a non-plain type.
    When the tag wraps a single non-empty text node, the fragment is that
    text. *)
Theorem unrecognized_top_level_tag (text : string) (before after : Soup)
    (n : string) (cs : list PageElement) :
  BeautifulSoup text = before ++ Tag n cs :: after ->
  tag_types !! n = None ->
  text_to_spans BeautifulSoup text
  = List.flat_map top_level_spans before
    ++ match string_of (Tag n cs) with
       | Some s => if Py.truthy s then [mkSpanDict "plain" s] else []
       | None => []
       end
    ++ List.flat_map top_level_spans after
  /\ Forall (fun f => span_type f = "plain") (top_level_spans (Tag n cs))
  /\ forall s, cs = [NavigableString s] -> s <> EmptyString ->
       top_level_spans (Tag n cs) = [mkSpanDict "plain" s].
Proof.
  intros Hsoup Hname.
  assert (top_level_spans (Tag n cs) = plain_spans (Tag n cs)) as Htop.
  { unfold top_level_spans, visit, plain_spans.
    cbn [negb length Nat.eqb name mbind option_bind].
    simpl. by rewrite Hname. }
  split; [| split].
  - rewrite text_to_spans_top_level, Hsoup, flat_map_app. simpl.
    by rewrite Htop.
  - rewrite Htop. unfold plain_spans.
    destruct (string_of (Tag n cs)) as [s |]; [| constructor].
    destruct (Py.truthy s); repeat constructor.
  - intros s -> Hs. rewrite Htop. unfold plain_spans. simpl.
    destruct s; [done | reflexivity].
Qed.

End MarkupParser.

Lemma html_parser_or_empty_agrees : agrees html_parser_or_empty.
Proof.
  intros text soup Hparse. unfold html_parser_or_empty. by rewrite Hparse.
Qed.

Lemma text_to_spans_example_and_depth_witness :
  html_parser_or_empty "<b>foo</b> <math>x=1</math> bar"
  = [Tag "b" [NavigableString "foo"]; NavigableString " ";
     Tag "math" [NavigableString "x=1"]; NavigableString " bar"]
  /\ text_to_spans html_parser_or_empty "<b>foo</b> <math>x=1</math> bar"
     = [mkSpanDict "bold" "foo"; mkSpanDict "plain" " ";
        mkSpanDict "math" "x=1"; mkSpanDict "plain" " bar"].
Proof.
  split; [reflexivity |].
  exact (proj1 (text_to_spans_example_and_depth html_parser_or_empty
                  eq_refl)).
Defined.

Lemma unrecognized_top_level_tag_witness :
  html_parser_or_empty "<u>foo</u>" = [] ++ Tag "u" [NavigableString "foo"] :: []
  /\ tag_types !! "u" = None
  /\ text_to_spans html_parser_or_empty "<u>foo</u>" = [mkSpanDict "plain" "foo"].
Proof.
  split; [reflexivity | split; [reflexivity |]].
  exact (proj1 (unrecognized_top_level_tag html_parser_or_empty
                  "<u>foo</u>" [] [] "u" [NavigableString "foo"]
                  eq_refl eq_refl)).
Defined.

(** C7 as stated fails: in ["<u>a<b>c</b></u>"] the top-level tag [u] is not
    registered, its inner text is "ac", and no fragment is produced. *)
Lemma unrecognized_tag_may_vanish :
  ~ (forall BS : string -> Soup, agrees BS ->
     forall text n cs,
       In (Tag n cs) (BS text) -> tag_types !! n = None ->
       In (mkSpanDict "plain" (get_text (Tag n cs))) (text_to_spans BS text)).
Proof.
  intros Hclaim.
  specialize (Hclaim html_parser_or_empty html_parser_or_empty_agrees
                "<u>a<b>c</b></u>" "u"
                [NavigableString "a"; Tag "b" [NavigableString "c"]]).
  assert (text_to_spans html_parser_or_empty "<u>a<b>c</b></u>" = [])
    as Hnone by (vm_compute; reflexivity).
  rewrite Hnone in Hclaim. apply Hclaim.
  - vm_compute. by left.
  - reflexivity.
Qed.

(** ** The model client: [generate] *)

Section Generate.

Context `{Geometry}.
Variable service : nat -> Request -> Outcome.
Variable json_loads : string -> option Response.

(** The loop returns once it has fuel for every remaining attempt and the
    final test of its condition. *)
Lemma generate_loop_returns (self : HighQualityTextProcessor)
    (req : Request) (fuel : nat) :
  forall tries calls log,
  (Z.to_nat (max_retries (attrs self) - tries) < fuel)%nat ->
  exists r, generate_loop service json_loads self req fuel tries calls log
            = Some r.
Proof.
  induction fuel as [| fuel IH]; intros tries calls log Hfuel; [lia |].
  simpl. destruct (Z.ltb_spec tries (max_retries (attrs self))); [| eauto].
  destruct (model self); [| eauto].
  destruct (service calls req) as [output | |]; [| | eauto].
  - destruct (json_loads output); eauto.
  - apply IH. lia.
Qed.

(** Without a model the first attempt fails on the attribute access;
    nothing is sent and nothing is slept. *)
Lemma generate_without_model (self : HighQualityTextProcessor)
    (prompt : string) (image : Image) (schema : Schema) :
  model self = None ->
  generate service json_loads self prompt image schema
  = Some (∅, if 0 <? max_retries (attrs self) then [Print] else []).
Proof.
  intros Hmodel. unfold generate. simpl. rewrite Hmodel.
  by destruct (0 <? max_retries (attrs self)).
Qed.

(** [generate] always returns. *)
Lemma generate_returns (self : HighQualityTextProcessor) (prompt : string)
    (image : Image) (schema : Schema) :
  exists r, generate service json_loads self prompt image schema = Some r.
Proof. unfold generate. apply generate_loop_returns. lia. Qed.

Lemma invocations_app (l1 l2 : list Event) :
  invocations (l1 ++ l2) = (invocations l1 + invocations l2)%nat.
Proof. unfold invocations. by rewrite List.filter_app, length_app. Qed.

Lemma sleeps_app (l1 l2 : list Event) :
  sleeps (l1 ++ l2) = sleeps l1 ++ sleeps l2.
Proof. unfold sleeps. apply omap_app. Qed.

Lemma backoff_log_invocations (req : Request) (k : nat) :
  forall tries, invocations (backoff_log req tries k) = k.
Proof.
  induction k as [| k IH]; intros tries; [done |].
  cbn [backoff_log]. rewrite invocations_app, IH. reflexivity.
Qed.

Lemma backoff_log_sleeps (req : Request) (k : nat) :
  forall tries,
  sleeps (backoff_log req tries k)
  = List.map (fun i => (tries + Z.of_nat i + 1) * 2) (seq 0 k).
Proof.
  induction k as [| k IH]; intros tries; [done |].
  cbn [backoff_log]. rewrite sleeps_app, IH. cbn [seq List.map].
  rewrite <- seq_shift, List.map_map. simpl. f_equal; [f_equal; lia |].
  apply List.map_ext. intros i. lia.
Qed.

(** [k] rate-limited attempts followed by a failure of another kind. *)
Lemma generate_loop_other_failure (self : HighQualityTextProcessor)
    (m : string) (req : Request) (k : nat) :
  model self = Some m ->
  forall fuel tries calls log,
  (k < fuel)%nat ->
  tries + Z.of_nat k < max_retries (attrs self) ->
  (forall j, (j < k)%nat ->
     service (calls + j)%nat req = RaiseResourceExhausted) ->
  other_failure json_loads (service (calls + k)%nat req) ->
  generate_loop service json_loads self req fuel tries calls log
  = Some (∅, log ++ backoff_log req tries k ++ [GenerateContent req; Print]).
Proof.
  intros Hmodel.
  induction k as [| k IH]; intros fuel tries calls log Hfuel Hmax Hrate Hfail;
    (destruct fuel as [| fuel]; [lia |]); cbn [generate_loop];
    rewrite Hmodel.
  - destruct (Z.ltb_spec tries (max_retries (attrs self))); [| lia].
    rewrite Nat.add_0_r in Hfail. cbn [backoff_log app].
    destruct (service calls req) as [output | |]; simpl in Hfail.
    + rewrite Hfail. by rewrite <- app_assoc.
    + done.
    + by rewrite <- app_assoc.
  - destruct (Z.ltb_spec tries (max_retries (attrs self))); [| lia].
    rewrite <- (Nat.add_0_r calls) at 1. rewrite (Hrate 0%nat) by lia.
    rewrite (IH fuel (tries + 1) (S calls)).
    + cbn [backoff_log]. by rewrite <- !app_assoc.
    + lia.
    + lia.
    + intros j Hj. rewrite <- (Hrate (S j)) by lia. f_equal. lia.
    + replace (S calls + k)%nat with (calls + S k)%nat by lia. exact Hfail.
Qed.

(** Rate-limited on every attempt: the loop sleeps after each of them,
    the last one included, and gives up. *)
Lemma generate_loop_exhausts (self : HighQualityTextProcessor)
    (m : string) (req : Request) (k : nat) :
  model self = Some m ->
  forall fuel tries calls log,
  (k < fuel)%nat ->
  tries + Z.of_nat k = max_retries (attrs self) ->
  (forall j, (j < k)%nat ->
     service (calls + j)%nat req = RaiseResourceExhausted) ->
  generate_loop service json_loads self req fuel tries calls log
  = Some (∅, log ++ backoff_log req tries k).
Proof.
  intros Hmodel.
  induction k as [| k IH]; intros fuel tries calls log Hfuel Hmax Hrate;
    (destruct fuel as [| fuel]; [lia |]); cbn [generate_loop];
    rewrite ?Hmodel.
  - destruct (Z.ltb_spec tries (max_retries (attrs self))); [lia |].
    by rewrite app_nil_r.
  - destruct (Z.ltb_spec tries (max_retries (attrs self))); [| lia].
    rewrite <- (Nat.add_0_r calls) at 1. rewrite (Hrate 0%nat) by lia.
    rewrite (IH fuel (tries + 1) (S calls)).
    + cbn [backoff_log]. by rewrite <- !app_assoc.
    + lia.
    + lia.
    + intros j Hj. rewrite <- (Hrate (S j)) by lia. f_equal. lia.
Qed.

(** The backoff is linear: when all [n = max_retries] attempts are
    rate-limited, the sleep after the [i]-th failure is [2 * i] seconds,
    for [i] from 1 to [n]. *)
Lemma generate_exhausts_retries (self : HighQualityTextProcessor)
    (m : string) (prompt : string) (image : Image) (schema : Schema)
    (n : nat) :
  let req := request_of self prompt image schema in
  model self = Some m ->
  max_retries (attrs self) = Z.of_nat n ->
  (forall j, (j < n)%nat -> service j req = RaiseResourceExhausted) ->
  exists log,
    generate service json_loads self prompt image schema = Some (∅, log)
    /\ invocations log = n
    /\ sleeps log = List.map (fun i => (Z.of_nat i + 1) * 2) (seq 0 n).
Proof.
  intros req Hmodel Hmax Hrate. exists (backoff_log req 0 n).
  split; [| split].
  - unfold generate. fold (request_of self prompt image schema). fold req.
    rewrite (generate_loop_exhausts self m req n);
      [done | done | lia | lia | done].
  - apply backoff_log_invocations.
  - rewrite backoff_log_sleeps. apply List.map_ext. intros i. lia.
Qed.

(** C2. When the [k]-th invocation of a [generate] call (the earlier ones
    having been rate-limited) raises a failure that is not a rate-limit
    failure, or returns a payload that does not parse, [generate] returns
    the empty object; the log ends with that invocation and the printing
    of the error: no sleep and no invocation follows it. In all there are
    [k + 1] invocations and the [k] sleeps of the earlier rate-limit
    failures, so none at all when the first invocation fails this way. *)
Theorem generate_other_failure_short_circuit
    (self : HighQualityTextProcessor) (m : string) (prompt : string)
    (image : Image) (schema : Schema) (k : nat) :
  let req := request_of self prompt image schema in
  model self = Some m ->
  (forall j, (j < k)%nat -> service j req = RaiseResourceExhausted) ->
  Z.of_nat k < max_retries (attrs self) ->
  other_failure json_loads (service k req) ->
  exists before,
    generate service json_loads self prompt image schema
    = Some (∅, before ++ [GenerateContent req; Print])
    /\ before = backoff_log req 0 k
    /\ invocations (before ++ [GenerateContent req; Print]) = S k
    /\ sleeps (before ++ [GenerateContent req; Print]) = sleeps before
    /\ length (sleeps before) = k.
Proof.
  intros req Hmodel Hrate Hmax Hfail. exists (backoff_log req 0 k).
  split; [| split; [done | split; [| split]]].
  - unfold generate. fold (request_of self prompt image schema). fold req.
    rewrite (generate_loop_other_failure self m req k);
      [done | done | lia | lia | done | done].
  - rewrite invocations_app, backoff_log_invocations.
    unfold invocations. simpl. lia.
  - rewrite sleeps_app. simpl. by rewrite app_nil_r.
  - by rewrite backoff_log_sleeps, length_map, length_seq.
Qed.

(** C1, the run the claim describes. With [max_retries = 3] and three
    consecutive rate-limit failures, [generate] sleeps 2, 4 and then 6
    seconds: the third failure is followed by a sleep as well, and only
    then is the empty object returned. *)
Theorem generate_three_rate_limits
    (a : Attributes) (m : string) (prompt : string) (image : Image)
    (schema : Schema) :
  let self :=
    mkProcessor
      (mkAttributes (google_api_key a) (model_name a) (high_quality a) 3
         (max_concurrency a) (timeout a) (gemini_rewriting_prompt a))
      (Some m) in
  let req := request_of self prompt image schema in
  generate (fun _ _ => RaiseResourceExhausted) json_loads self prompt image
    schema
  = Some (∅, [GenerateContent req; Print; Sleep 2;
              GenerateContent req; Print; Sleep 4;
              GenerateContent req; Print; Sleep 6])
  /\ sleeps [GenerateContent req; Print; Sleep 2;
             GenerateContent req; Print; Sleep 4;
             GenerateContent req; Print; Sleep 6] = [2; 4; 6].
Proof. intros self req. split; reflexivity. Qed.

End Generate.

Lemma generate_other_failure_short_circuit_witness :
  model Sample.processor = Some "gemini-1.5-flash"
  /\ (forall j, (j < 1)%nat ->
       Sample.flaky_service j (Sample.request [])
       = RaiseResourceExhausted)
  /\ 1 < max_retries (attrs Sample.processor)
  /\ other_failure Sample.never_loads
       (Sample.flaky_service 1 (Sample.request []))
  /\ exists before,
       generate Sample.flaky_service Sample.never_loads Sample.processor
         (rewriting_prompt Sample.dumps Sample.processor []) tt
         response_schema
       = Some (∅, before ++ [GenerateContent (Sample.request []); Print])
       /\ before = [GenerateContent (Sample.request []); Print; Sleep 2].
Proof.
  assert (forall j, (j < 1)%nat ->
            Sample.flaky_service j (Sample.request [])
            = RaiseResourceExhausted) as Hrate.
  { intros j Hj. destruct j; [reflexivity | lia]. }
  split; [reflexivity | split; [exact Hrate |]].
  split; [reflexivity | split; [exact I |]].
  destruct (generate_other_failure_short_circuit (H := unit_geometry)
              Sample.flaky_service Sample.never_loads Sample.processor
              "gemini-1.5-flash"
              (rewriting_prompt Sample.dumps Sample.processor []) tt
              response_schema 1 eq_refl Hrate eq_refl I)
    as (before & Hgen & Hbefore & _).
  exists before. split; [exact Hgen | exact Hbefore].
Defined.

(** ** The correction of a block: [process_block_rewriting] *)

Section Rewriting.

Context `{Geometry}.
Variable service : nat -> Request -> Outcome.
Variable json_loads : string -> option Response.
Variable json_dumps : list string -> string.
Variable BeautifulSoup : string -> Soup.
Variable formatted_text : PageGroup -> Line -> string.

Lemma synthesized_from_ext (l1 l2 : Line) (n : nat) (fs : list SpanDict) :
  line_polygon l1 = line_polygon l2 ->
  line_page_id l1 = line_page_id l2 ->
  forall idx, synthesized_from l1 n idx fs = synthesized_from l2 n idx fs.
Proof.
  intros Hpoly Hpid. induction fs as [| f fs IH]; intros idx; [done |].
  simpl. rewrite IH. unfold synthesized. by rewrite Hpoly, Hpid.
Qed.

(** The inner loop in closed form: the page gains the synthesized Spans,
    the Line gains their identities. *)
Lemma synthesize_spans_eq (n : nat) (fs : list SpanDict) :
  forall idx page line,
  synthesize_spans n idx fs page line
  = (mkPage (page_polygon page) (lowres_image page)
       (children page ++ synthesized_from line n idx fs),
     mkLine (line_polygon line) (line_page_id line)
       (structure line ++ seq (length (children page)) (length fs))).
Proof.
  induction fs as [| f fs IH]; intros idx page line.
  - simpl. rewrite !app_nil_r. by destruct page, line.
  - cbn [synthesize_spans add_full_block]. rewrite IH. simpl.
    rewrite <- !app_assoc, length_app. simpl.
    replace (length (children page) + 1)%nat
      with (S (length (children page))) by lia.
    f_equal. f_equal. f_equal. f_equal.
    + unfold synthesized. by destruct (Z.of_nat idx =? Z.of_nat n - 1).
    + by apply synthesized_from_ext.
Qed.

Lemma synthesized_from_lookup (line : Line) (n : nat) (fs : list SpanDict) :
  forall idx i,
  synthesized_from line n idx fs !! i
  = synthesized line n (idx + i) <$> fs !! i.
Proof.
  induction fs as [| f fs IH]; intros idx i; [done |].
  destruct i as [| i]; simpl.
  - by rewrite Nat.add_0_r.
  - rewrite IH. by replace (S idx + i)%nat with (idx + S i)%nat by lia.
Qed.

Lemma synthesized_from_length (line : Line) (n : nat) (fs : list SpanDict) :
  forall idx, length (synthesized_from line n idx fs) = length fs.
Proof. induction fs as [| f fs IH]; intros idx; simpl; [done | by rewrite IH]. Qed.

(** The outer loop in closed form. *)
Lemma reconcile_lines_children (text_lines : list Line) :
  forall corrected_lines page,
  children (reconcile_lines BeautifulSoup page text_lines corrected_lines).1
  = children page ++ synthesized_lines BeautifulSoup text_lines corrected_lines.
Proof.
  induction text_lines as [| line text_lines IH];
    intros [| corrected_text corrected_lines] page; simpl;
    rewrite ?app_nil_r; try done.
  rewrite synthesize_spans_eq.
  destruct (reconcile_lines _ _ text_lines corrected_lines) as [page2 rest]
    eqn:Hrest.
  simpl. pose proof (IH corrected_lines
    (mkPage (page_polygon page) (lowres_image page)
       (children page
        ++ synthesized_from
             (mkLine (line_polygon line) (line_page_id line) [])
             (length (text_to_spans BeautifulSoup corrected_text)) 0
             (text_to_spans BeautifulSoup corrected_text)))) as Hch.
  rewrite Hrest in Hch. simpl in Hch. rewrite Hch, <- app_assoc.
  f_equal. f_equal. by apply synthesized_from_ext.
Qed.

(** Each Line after reconciliation: same geometry, and its child list
    names, fragment by fragment, the Span synthesized for that
    fragment. *)
Lemma reconcile_lines_lookup (text_lines : list Line) :
  forall corrected_lines page j line corrected_text,
  text_lines !! j = Some line ->
  corrected_lines !! j = Some corrected_text ->
  exists line',
    (reconcile_lines BeautifulSoup page text_lines corrected_lines).2 !! j
    = Some line'
    /\ line_polygon line' = line_polygon line
    /\ line_page_id line' = line_page_id line
    /\ length (structure line')
       = length (text_to_spans BeautifulSoup corrected_text)
    /\ forall i f,
         text_to_spans BeautifulSoup corrected_text !! i = Some f ->
         exists id,
           structure line' !! i = Some id
           /\ children
                (reconcile_lines BeautifulSoup page text_lines
                   corrected_lines).1 !! id
              = Some (synthesized line
                        (length (text_to_spans BeautifulSoup corrected_text))
                        i f).
Proof.
  induction text_lines as [| l text_lines IH];
    intros [| c corrected_lines] page j line corrected_text Hl Hc;
    try done.
  cbn [reconcile_lines]. rewrite synthesize_spans_eq.
  set (page1 := mkPage _ _ _).
  pose proof (reconcile_lines_children text_lines corrected_lines page1)
    as Hch.
  destruct j as [| j]; simpl in Hl, Hc.
  - injection Hl as ->. injection Hc as ->.
    destruct (reconcile_lines _ page1 text_lines corrected_lines)
      as [page2 rest]. simpl in Hch.
    eexists. split; [reflexivity |]. simpl.
    split; [done | split; [done | split; [by rewrite length_seq |]]].
    intros i f Hf. exists (length (children page) + i)%nat.
    assert (i < length (text_to_spans BeautifulSoup corrected_text))%nat
      as Hi by (by eapply lookup_lt_Some).
    split; [by apply lookup_seq_lt |].
    rewrite Hch. subst page1. simpl.
    rewrite <- app_assoc, lookup_app_r by lia.
    replace (length (children page) + i - length (children page))%nat
      with i by lia.
    rewrite lookup_app_l by (by rewrite synthesized_from_length).
    by rewrite synthesized_from_lookup, Hf.
  - specialize (IH corrected_lines page1 j line corrected_text Hl Hc).
    destruct (reconcile_lines _ page1 text_lines corrected_lines)
      as [page2 rest]. simpl. exact IH.
Qed.

Lemma reconcile_lines_length (text_lines : list Line) :
  forall corrected_lines page,
  length (reconcile_lines BeautifulSoup page text_lines corrected_lines).2
  = length text_lines.
Proof.
  induction text_lines as [| l text_lines IH];
    intros [| c corrected_lines] page; try done.
  cbn [reconcile_lines]. rewrite synthesize_spans_eq.
  set (page1 := mkPage _ _ _).
  specialize (IH corrected_lines page1).
  destruct (reconcile_lines _ page1 text_lines corrected_lines)
    as [page2 rest]. simpl in *. by rewrite IH.
Qed.

(** What [process_block_rewriting] returns, given what [generate]
    returned. *)
Lemma process_block_rewriting_eq (self : HighQualityTextProcessor)
    (page : PageGroup) (block : Block) (text_lines : list Line)
    (response : Response) (log : list Event) :
  generate service json_loads self
    (rewriting_prompt json_dumps self
       (List.map (formatted_text page) text_lines))
    (extract_image page block one_percent) response_schema
  = Some (response, log) ->
  process_block_rewriting service json_loads json_dumps BeautifulSoup
    formatted_text self page block text_lines
  = Some
      (let corrected_lines := default [] (response !! "corrected_lines") in
       if nonempty corrected_lines
          && (length corrected_lines =? length text_lines)%nat
       then
         (log,
          (reconcile_lines BeautifulSoup page text_lines corrected_lines).1,
          (reconcile_lines BeautifulSoup page text_lines corrected_lines).2)
       else (log, page, text_lines)).
Proof.
  intros Hgen. unfold process_block_rewriting. rewrite Hgen. simpl.
  rewrite length_map.
  assert ((if negb (bool_decide (response = ∅))
           then match response !! "corrected_lines" with
                | Some lines => lines
                | None => []
                end
           else []) = default [] (response !! "corrected_lines")) as ->.
  { case_bool_decide as Hempty; simpl.
    - by rewrite Hempty, lookup_empty.
    - by destruct (response !! "corrected_lines"). }
  destruct (nonempty _ && _); [| done].
  by destruct (reconcile_lines _ _ _ _).
Qed.

Lemma process_block_rewriting_applies (self : HighQualityTextProcessor)
    (page : PageGroup) (block : Block) (text_lines : list Line)
    (response : Response) (log : list Event) (cl : list string) :
  generate service json_loads self
    (rewriting_prompt json_dumps self
       (List.map (formatted_text page) text_lines))
    (extract_image page block one_percent) response_schema
  = Some (response, log) ->
  response !! "corrected_lines" = Some cl ->
  cl <> [] ->
  length cl = length text_lines ->
  process_block_rewriting service json_loads json_dumps BeautifulSoup
    formatted_text self page block text_lines
  = Some (log, (reconcile_lines BeautifulSoup page text_lines cl).1,
          (reconcile_lines BeautifulSoup page text_lines cl).2).
Proof.
  intros Hgen Hcl Hne Hlen.
  rewrite (process_block_rewriting_eq _ _ _ _ _ _ Hgen), Hcl. simpl.
  rewrite Hlen, Nat.eqb_refl. by destruct cl.
Qed.

Lemma endswith_nl_terminated (s : string) :
  Py.endswith_nl (s +:+ Py.NL) = true.
Proof.
  induction s as [| c s IH]; [done |].
  simpl. destruct (s +:+ Py.NL) eqn:Hs; [by destruct s | exact IH].
Qed.

Lemma synthesized_is_synthetic (line : Line) (n i : nat) (f : SpanDict) :
  synthetic_for line (span_type f) (synthesized line n i f).
Proof. unfold synthetic_for, synthesized. simpl. by repeat split. Qed.

Lemma synthesized_lines_synthetic (text_lines : list Line) :
  forall corrected_lines,
  Forall (fun s => exists line ty, line ∈ text_lines /\ synthetic_for line ty s)
    (synthesized_lines BeautifulSoup text_lines corrected_lines).
Proof.
  induction text_lines as [| line text_lines IH];
    intros [| c corrected_lines]; simpl; try by constructor.
  apply Forall_app. split.
  - generalize 0%nat. generalize (length (text_to_spans BeautifulSoup c)).
    induction (text_to_spans BeautifulSoup c) as [| f fs IHfs];
      intros n idx; simpl; constructor; [| apply IHfs].
    exists line, (span_type f). split; [by left |].
    apply synthesized_is_synthetic.
  - eapply Forall_impl; [apply IH |].
    intros s (l & ty & Hl & Hs). exists l, ty. split; [by right | done].
Qed.

(** C9. If the [corrected_lines] list of the response is empty, the page
    and the Lines are left as they were, whatever the number of Lines, so
    also for a block with no Lines, where both lengths are 0. A list of
    the same length as the extracted lines is reconciled exactly when it
    is non-empty. *)
Theorem empty_corrected_lines_no_reconciliation
    (self : HighQualityTextProcessor) (page : PageGroup) (block : Block)
    (text_lines : list Line) (response : Response) (log : list Event) :
  generate service json_loads self
    (rewriting_prompt json_dumps self
       (List.map (formatted_text page) text_lines))
    (extract_image page block one_percent) response_schema
  = Some (response, log) ->
  (response !! "corrected_lines" = Some [] ->
   process_block_rewriting service json_loads json_dumps BeautifulSoup
     formatted_text self page block text_lines
   = Some (log, page, text_lines))
  /\ (forall cl,
        response !! "corrected_lines" = Some cl ->
        length cl = length (List.map (formatted_text page) text_lines) ->
        process_block_rewriting service json_loads json_dumps BeautifulSoup
          formatted_text self page block text_lines
        = Some
            (if nonempty cl
             then
               (log, (reconcile_lines BeautifulSoup page text_lines cl).1,
                (reconcile_lines BeautifulSoup page text_lines cl).2)
             else (log, page, text_lines))).
Proof.
  intros Hgen. rewrite (process_block_rewriting_eq _ _ _ _ _ _ Hgen).
  split.
  - by intros ->.
  - intros cl -> Hlen. rewrite length_map in Hlen. simpl.
    rewrite Hlen, Nat.eqb_refl. by rewrite andb_true_r.
Qed.

(** C5, amended. After a successful reconciliation the Spans of each Line
    carry the fragment contents in order; the content of the last
    fragment has one line terminator appended, so it ends with one; the
    contents of the fragments before it are stored as parsed, with
    nothing appended. *)
Theorem terminator_appended_to_last_span_only
    (self : HighQualityTextProcessor) (page : PageGroup) (block : Block)
    (text_lines : list Line) (response : Response) (log : list Event)
    (cl : list string) :
  generate service json_loads self
    (rewriting_prompt json_dumps self
       (List.map (formatted_text page) text_lines))
    (extract_image page block one_percent) response_schema
  = Some (response, log) ->
  response !! "corrected_lines" = Some cl ->
  cl <> [] ->
  length cl = length text_lines ->
  exists page' lines',
    process_block_rewriting service json_loads json_dumps BeautifulSoup
      formatted_text self page block text_lines
    = Some (log, page', lines')
    /\ forall j line corrected_text,
         text_lines !! j = Some line ->
         cl !! j = Some corrected_text ->
         exists line',
           lines' !! j = Some line'
           /\ length (span_texts page' line')
              = length (text_to_spans BeautifulSoup corrected_text)
           /\ forall i f,
                text_to_spans BeautifulSoup corrected_text !! i = Some f ->
                exists s,
                  span_texts page' line' !! i = Some (Some s)
                  /\ (S i = length (text_to_spans BeautifulSoup corrected_text)
                      -> s = span_content f +:+ Py.NL
                         /\ Py.endswith_nl s = true)
                  /\ (S i <> length (text_to_spans BeautifulSoup corrected_text)
                      -> s = span_content f).
Proof.
  intros Hgen Hcl Hne Hlen. eexists _, _.
  split;
    [exact (process_block_rewriting_applies self page block text_lines
              response log cl Hgen Hcl Hne Hlen) |].
  intros j line corrected_text Hline Htext.
  destruct (reconcile_lines_lookup text_lines cl page j line corrected_text
              Hline Htext) as (line' & Hline' & _ & _ & Hstruct & Hspans).
  exists line'. split; [done |]. unfold span_texts.
  split; [by rewrite length_fmap |].
  intros i f Hf. destruct (Hspans i f Hf) as (id & Hid & Hspan).
  rewrite list_lookup_fmap, Hid. simpl. rewrite Hspan. simpl.
  eexists. split; [reflexivity |].
  split.
  - intros Hlast.
    destruct (Z.eqb_spec (Z.of_nat i)
                (Z.of_nat (length (text_to_spans BeautifulSoup corrected_text)) - 1));
      [| lia].
    split; [done | apply endswith_nl_terminated].
  - intros Hnot.
    destruct (Z.eqb_spec (Z.of_nat i)
                (Z.of_nat (length (text_to_spans BeautifulSoup corrected_text)) - 1));
      [lia | done].
Qed.

(** C10. After a successful reconciliation, the page has gained Spans
    only, each with the polygon and page id of a Line of the block, font
    "Unknown", zero font weight, font size, minimum and maximum position,
    a one-element formats list and text extraction method "gemini"; and
    for every Line and every fragment of its corrected text, the Line's
    child list names at the fragment's position a Span of the page that
    has this Line's polygon and page id, the fragment's type as its only
    format, and the other fields as above. *)
Theorem synthesized_span_metadata
    (self : HighQualityTextProcessor) (page : PageGroup) (block : Block)
    (text_lines : list Line) (response : Response) (log : list Event)
    (cl : list string) :
  generate service json_loads self
    (rewriting_prompt json_dumps self
       (List.map (formatted_text page) text_lines))
    (extract_image page block one_percent) response_schema
  = Some (response, log) ->
  response !! "corrected_lines" = Some cl ->
  cl <> [] ->
  length cl = length text_lines ->
  exists page' lines',
    process_block_rewriting service json_loads json_dumps BeautifulSoup
      formatted_text self page block text_lines
    = Some (log, page', lines')
    /\ (exists new,
          children page' = children page ++ new
          /\ Forall (fun s => exists line ty,
                        line ∈ text_lines /\ synthetic_for line ty s) new)
    /\ forall j line corrected_text,
         text_lines !! j = Some line ->
         cl !! j = Some corrected_text ->
         exists line',
           lines' !! j = Some line'
           /\ length (structure line')
              = length (text_to_spans BeautifulSoup corrected_text)
           /\ forall i f,
                text_to_spans BeautifulSoup corrected_text !! i = Some f ->
                exists id s,
                  structure line' !! i = Some id
                  /\ children page' !! id = Some s
                  /\ synthetic_for line (span_type f) s.
Proof.
  intros Hgen Hcl Hne Hlen. eexists _, _.
  split;
    [exact (process_block_rewriting_applies self page block text_lines
              response log cl Hgen Hcl Hne Hlen) |].
  split.
  - exists (synthesized_lines BeautifulSoup text_lines cl).
    split; [apply reconcile_lines_children |].
    apply synthesized_lines_synthetic.
  - intros j line corrected_text Hline Htext.
    destruct (reconcile_lines_lookup text_lines cl page j line
                corrected_text Hline Htext)
      as (line' & Hline' & _ & _ & Hstruct & Hspans).
    exists line'. split; [done | split; [done |]].
    intros i f Hf. destruct (Hspans i f Hf) as (id & Hid & Hspan).
    eexists id, _. split; [done | split; [exact Hspan |]].
    apply synthesized_is_synthetic.
Qed.

End Rewriting.

(** ** Construction and the enabling gate *)

Section Construction.

Context `{Geometry}.

(** C6. With the feature enabled and no credential, construction raises
    the error and nothing has been sent or configured before it. With the
    feature disabled, construction succeeds with or without a credential,
    leaves the processor without a model, and calling the processor
    returns the document as it is without any effect and without
    dispatching any block. *)
Theorem init_gates_on_feature_and_key
    (key : option string) (name : string) (retries concurrency secs : Z)
    (prompt : string) :
  __init__ (mkAttributes None name true retries concurrency secs prompt)
  = ([], inl (ValueError "Google API key is not set"))
  /\ __init__ (mkAttributes key name false retries concurrency secs prompt)
     = ([], inr (mkProcessor
                   (mkAttributes key name false retries concurrency secs
                      prompt) None))
  /\ forall (Document : Type)
       (rewrite_blocks :
          HighQualityTextProcessor -> Document -> list Event * Document)
       (document : Document),
       __call__ rewrite_blocks
         (mkProcessor
            (mkAttributes key name false retries concurrency secs prompt)
            None) document
       = ([], document).
Proof. repeat split. Qed.

End Construction.

(** ** Caption and Handwriting *)

Section AssembleHtml.

Context {Document ChildBlocks ParentStructure : Type}.
Variable super_assemble_html :
  Document -> ChildBlocks -> ParentStructure -> string.

Lemma replace_length (s : string) (old new : ascii) :
  String.length (Py.replace s old new) = String.length s.
Proof. induction s as [| c s IH]; simpl; [done | by rewrite IH]. Qed.

Lemma replace_get (s : string) (old new : ascii) :
  forall i,
  String.get i (Py.replace s old new)
  = (fun c => if Ascii.eqb c old then new else c) <$> String.get i s.
Proof.
  induction s as [| c s IH]; intros i; simpl; [done |].
  destruct i as [| i]; [done | apply IH].
Qed.

Lemma replace_absent (s : string) :
  Py.contains_nl s = false -> Py.replace s Py.nl_char " "%char = s.
Proof.
  induction s as [| c s IH]; simpl; [done |].
  intros [Hc Hs]%orb_false_elim. by rewrite Hc, IH.
Qed.

(** C8, amended. For a Caption and for a Handwriting block,
    [assemble_html] returns the text assembled by the superclass with
    every line break replaced by a space, between "<p>" and "</p>": the
    inner text has the length of the assembled text and the same
    character at every position, except that a line break has become a
    space. When the assembled text has no line break, the result is the
    assembled text itself between the two tags. *)
Theorem assemble_html_paragraph (document : Document)
    (child_blocks : ChildBlocks) (parent_structure : ParentStructure) :
  exists inner,
    Caption.assemble_html super_assemble_html document child_blocks
      parent_structure = "<p>" +:+ inner +:+ "</p>"
    /\ Handwriting.assemble_html super_assemble_html document child_blocks
         parent_structure = "<p>" +:+ inner +:+ "</p>"
    /\ String.length inner
       = String.length
           (super_assemble_html document child_blocks parent_structure)
    /\ (forall i,
          String.get i inner
          = (fun c => if Ascii.eqb c Py.nl_char then " "%char else c)
            <$> String.get i
                  (super_assemble_html document child_blocks
                     parent_structure))
    /\ (Py.contains_nl
          (super_assemble_html document child_blocks parent_structure)
        = false ->
        inner = super_assemble_html document child_blocks parent_structure).
Proof.
  exists (Py.replace
            (super_assemble_html document child_blocks parent_structure)
            Py.nl_char " "%char).
  split; [done | split; [done | split; [apply replace_length |]]].
  split; [apply replace_get | apply replace_absent].
Qed.

End AssembleHtml.

Lemma assemble_html_paragraph_witness :
  Py.contains_nl (Sample.assemble_one_row tt tt tt) = false
  /\ Caption.assemble_html Sample.assemble_one_row tt tt tt = "<p>ab</p>"
  /\ Handwriting.assemble_html Sample.assemble_one_row tt tt tt = "<p>ab</p>".
Proof.
  split; [reflexivity |].
  destruct (assemble_html_paragraph Sample.assemble_one_row tt tt tt)
    as (inner & Hcaption & Hhandwriting & _ & _ & Hsame).
  rewrite (Hsame eq_refl) in Hcaption, Hhandwriting.
  split; [exact Hcaption | exact Hhandwriting].
Defined.

(** C8 as stated fails: the assembled text "a", line break, "b" comes out
    as "<p>a b</p>", which is not the assembled text between the tags. *)
Lemma assemble_html_rewrites_line_breaks :
  Caption.assemble_html Sample.assemble_two_rows tt tt tt = "<p>a b</p>"
  /\ Caption.assemble_html Sample.assemble_two_rows tt tt tt
     <> "<p>" +:+ Sample.assemble_two_rows tt tt tt +:+ "</p>"
  /\ Handwriting.assemble_html Sample.assemble_two_rows tt tt tt = "<p>a b</p>"
  /\ Handwriting.assemble_html Sample.assemble_two_rows tt tt tt
     <> "<p>" +:+ Sample.assemble_two_rows tt tt tt +:+ "</p>".
Proof. repeat split; (reflexivity || discriminate). Qed.

(** ** Concrete runs of [process_block_rewriting] *)


Lemma empty_corrected_lines_no_reconciliation_witness :
  generate Sample.answering_service (Sample.fixed_loads Sample.no_lines)
    Sample.processor
    (rewriting_prompt Sample.dumps Sample.processor
       (List.map (Sample.line_text Sample.page) []))
    (extract_image Sample.page Sample.block one_percent) response_schema
  = Some (Sample.no_lines, [GenerateContent (Sample.request [])])
  /\ Sample.no_lines !! "corrected_lines" = Some []
  /\ length (@nil string)
     = length (List.map (Sample.line_text Sample.page) [])
  /\ process_block_rewriting Sample.answering_service
       (Sample.fixed_loads Sample.no_lines) Sample.dumps html_parser_or_empty
       Sample.line_text Sample.processor Sample.page Sample.block []
     = Some ([GenerateContent (Sample.request [])], Sample.page, []).
Proof.
  split; [reflexivity | split; [reflexivity | split; [reflexivity |]]].
  apply (proj1 (empty_corrected_lines_no_reconciliation (H := unit_geometry)
           Sample.answering_service (Sample.fixed_loads Sample.no_lines)
           Sample.dumps html_parser_or_empty Sample.line_text
           Sample.processor Sample.page Sample.block []
           Sample.no_lines [GenerateContent (Sample.request [])] eq_refl)).
  reflexivity.
Defined.

Lemma terminator_appended_to_last_span_only_witness :
  generate Sample.answering_service (Sample.fixed_loads Sample.one_line)
    Sample.processor
    (rewriting_prompt Sample.dumps Sample.processor
       (List.map (Sample.line_text Sample.page) [Sample.line]))
    (extract_image Sample.page Sample.block one_percent) response_schema
  = Some (Sample.one_line, [GenerateContent (Sample.request ["a b"])])
  /\ Sample.one_line !! "corrected_lines" = Some [Sample.two_fragments]
  /\ [Sample.two_fragments] <> []
  /\ length [Sample.two_fragments] = length [Sample.line]
  /\ exists page' lines',
       process_block_rewriting Sample.answering_service
         (Sample.fixed_loads Sample.one_line) Sample.dumps
         html_parser_or_empty Sample.line_text Sample.processor Sample.page
         Sample.block [Sample.line]
       = Some ([GenerateContent (Sample.request ["a b"])], page', lines').
Proof.
  split; [reflexivity | split; [reflexivity | split; [discriminate |]]].
  split; [reflexivity |].
  destruct (terminator_appended_to_last_span_only (H := unit_geometry)
              Sample.answering_service (Sample.fixed_loads Sample.one_line)
              Sample.dumps html_parser_or_empty Sample.line_text
              Sample.processor Sample.page Sample.block [Sample.line]
              Sample.one_line [GenerateContent (Sample.request ["a b"])]
              [Sample.two_fragments] eq_refl eq_refl
              ltac:(discriminate) eq_refl)
    as (page' & lines' & Hrun & _).
  exists page', lines'. exact Hrun.
Defined.

(** C5 as stated fails: the corrected line "a", line break, "<b>x</b>"
    parses into two fragments, and after reconciliation the first of the
    two Spans holds "a" followed by a line break: a Span that is not the
    last one ends with a line terminator. *)
Lemma earlier_span_may_end_with_terminator :
  length (text_to_spans html_parser_or_empty Sample.two_fragments) = 2%nat
  /\ exists log page' line',
       process_block_rewriting Sample.answering_service
         (Sample.fixed_loads Sample.one_line) Sample.dumps
         html_parser_or_empty Sample.line_text Sample.processor Sample.page
         Sample.block [Sample.line]
       = Some (log, page', [line'])
       /\ span_texts page' line'
          = [Some (String "a" Py.NL); Some (String "x" Py.NL)]
       /\ Py.endswith_nl (String "a" Py.NL) = true.
Proof.
  split; [reflexivity |].
  eexists _, _, _. split; [vm_compute; reflexivity |].
  split; reflexivity.
Qed.

Lemma synthesized_span_metadata_witness :
  generate Sample.answering_service (Sample.fixed_loads Sample.one_line)
    Sample.processor
    (rewriting_prompt Sample.dumps Sample.processor
       (List.map (Sample.line_text Sample.page) [Sample.line]))
    (extract_image Sample.page Sample.block one_percent) response_schema
  = Some (Sample.one_line, [GenerateContent (Sample.request ["a b"])])
  /\ Sample.one_line !! "corrected_lines" = Some [Sample.two_fragments]
  /\ [Sample.two_fragments] <> []
  /\ length [Sample.two_fragments] = length [Sample.line]
  /\ exists page' new,
       children page' = children Sample.page ++ new
       /\ Forall (fun s => exists line ty,
                    line ∈ [Sample.line] /\ synthetic_for line ty s) new.
Proof.
  split; [reflexivity | split; [reflexivity | split; [discriminate |]]].
  split; [reflexivity |].
  destruct (synthesized_span_metadata (H := unit_geometry)
              Sample.answering_service (Sample.fixed_loads Sample.one_line)
              Sample.dumps html_parser_or_empty Sample.line_text
              Sample.processor Sample.page Sample.block [Sample.line]
              Sample.one_line [GenerateContent (Sample.request ["a b"])]
              [Sample.two_fragments] eq_refl eq_refl
              ltac:(discriminate) eq_refl)
    as (page' & lines' & _ & (new & Hchildren & Hnew) & _).
  exists page', new. split; [exact Hchildren | exact Hnew].
Defined.

(** * Further properties *)

(** ** The shape of every run of [generate] *)

Section GenerateRuns.

Context `{Geometry}.
Variable service : nat -> Request -> Outcome.
Variable json_loads : string -> option Response.

(** Every run of the loop is a number [k] of rate-limited attempts followed
    by one of four endings: the retries are used up; the processor has no
    model; an attempt succeeds; an attempt fails in another way. *)
Lemma generate_loop_run (self : HighQualityTextProcessor) (req : Request)
    (fuel : nat) :
  forall tries calls log r log',
  generate_loop service json_loads self req fuel tries calls log
  = Some (r, log') ->
  exists k tail,
    log' = log ++ backoff_log req tries k ++ tail
    /\ (forall j, (j < k)%nat ->
          service (calls + j)%nat req = RaiseResourceExhausted
          /\ tries + Z.of_nat j < max_retries (attrs self))
    /\ ((tail = [] /\ r = ∅ /\ max_retries (attrs self) <= tries + Z.of_nat k)
        \/ (tries + Z.of_nat k < max_retries (attrs self)
            /\ ((model self = None /\ tail = [Print] /\ r = ∅)
                \/ (exists output,
                      service (calls + k)%nat req = Text output
                      /\ json_loads output = Some r
                      /\ tail = [GenerateContent req])
                \/ (other_failure json_loads (service (calls + k)%nat req)
                    /\ tail = [GenerateContent req; Print] /\ r = ∅)))).
Proof.
  induction fuel as [| fuel IH]; intros tries calls log r log' Hrun;
    [done |].
  cbn [generate_loop] in Hrun.
  destruct (Z.ltb_spec tries (max_retries (attrs self))) as [Hlt | Hge].
  - destruct (model self) as [m |] eqn:Hmodel.
    + destruct (service calls req) as [output | |] eqn:Hservice.
      * destruct (json_loads output) as [parsed |] eqn:Hparse;
          injection Hrun as <- <-; exists 0%nat; eexists;
          (split; [cbn [backoff_log app]; by rewrite <- ?app_assoc |]);
          (split; [intros j Hj; lia |]); right;
          rewrite Nat.add_0_r, Z.add_0_r; (split; [done |]); right.
        -- left. exists output. by rewrite Hservice.
        -- right. rewrite Hservice. simpl. done.
      * apply IH in Hrun as (k & tail & -> & Hrate & Hend).
        exists (S k), tail. split; [| split].
        -- cbn [backoff_log]. by rewrite <- !app_assoc.
        -- intros [| j] Hj.
           ++ rewrite Nat.add_0_r, Z.add_0_r. done.
           ++ destruct (Hrate j ltac:(lia)) as [Hs Hb].
              replace (calls + S j)%nat with (S calls + j)%nat by lia.
              split; [done | lia].
        -- replace (calls + S k)%nat with (S calls + k)%nat by lia.
           replace (tries + Z.of_nat (S k)) with (tries + 1 + Z.of_nat k)
             by lia.
           exact Hend.
      * injection Hrun as <- <-. exists 0%nat, [GenerateContent req; Print].
        split; [cbn [backoff_log app]; by rewrite <- app_assoc |].
        split; [intros j Hj; lia |]. right.
        rewrite Nat.add_0_r, Z.add_0_r. split; [done |]. right. right.
        by rewrite Hservice.
    + injection Hrun as <- <-. exists 0%nat, [Print].
      split; [done |]. split; [intros j Hj; lia |]. right.
      rewrite Z.add_0_r. split; [done |]. by left.
  - injection Hrun as <- <-. exists 0%nat, [].
    split; [by rewrite !app_nil_r |]. split; [intros j Hj; lia |].
    left. split; [done | split; [done | lia]].
Qed.

Lemma linear_schedule_backoff (req : Request) (k : nat) :
  sleeps (backoff_log req 0 k) = linear_schedule k.
Proof.
  unfold linear_schedule. rewrite backoff_log_sleeps.
  apply List.map_ext. intros i. lia.
Qed.

Lemma backoff_log_effects (req : Request) (k : nat) :
  forall tries, Forall (effect_of_generate req) (backoff_log req tries k).
Proof.
  induction k as [| k IH]; intros tries; cbn [backoff_log]; [constructor |].
  apply Forall_app. split; [| apply IH].
  repeat constructor.
Qed.

(** X1. Whatever the service does, [generate] returns, having invoked the
    model at most [max_retries] times (not at all when [max_retries] is
    zero or negative), and the seconds it slept are an initial part
    [2; 4; ...; 2 * m] of the linear schedule, with one sleep at most per
    invocation. *)
Theorem generate_is_bounded (self : HighQualityTextProcessor)
    (prompt : string) (image : Image) (schema : Schema) :
  exists r log m,
    generate service json_loads self prompt image schema = Some (r, log)
    /\ Z.of_nat (invocations log) <= Z.max 0 (max_retries (attrs self))
    /\ sleeps log = linear_schedule m
    /\ (m <= invocations log)%nat.
Proof.
  destruct (generate_returns service json_loads self prompt image schema)
    as [[r log] Hgen].
  pose proof Hgen as Hrun. unfold generate in Hrun.
  apply generate_loop_run in Hrun as (k & tail & Hlog & Hrate & Hend).
  simpl in Hlog. exists r, log, k. split; [done |].
  assert (k = 0%nat \/ Z.of_nat k <= max_retries (attrs self)) as Hk.
  { destruct k as [| k]; [by left | right].
    destruct (Hrate k ltac:(lia)) as [_ Hb]. lia. }
  rewrite Hlog, invocations_app, sleeps_app, backoff_log_invocations,
    linear_schedule_backoff.
  destruct Hend as [(-> & _ & _) | (Hlt & [(_ & -> & _) | [(o & _ & _ & ->)
    | (_ & -> & _)]])];
    unfold invocations; simpl; rewrite ?app_nil_r;
    (split; [lia | split; [done | lia]]).
Qed.

(** X2. When the first [k] attempts are rate-limited and the next one,
    still within [max_retries], returns a payload that parses, [generate]
    returns the parsed object as it is; it has slept after each of the [k]
    failures and does not print or sleep after the successful attempt. *)
Theorem generate_succeeds_after_retries (self : HighQualityTextProcessor)
    (m : string) (prompt : string) (image : Image) (schema : Schema)
    (k : nat) (output : string) (parsed : Response) :
  let req := request_of self prompt image schema in
  model self = Some m ->
  (forall j, (j < k)%nat -> service j req = RaiseResourceExhausted) ->
  Z.of_nat k < max_retries (attrs self) ->
  service k req = Text output ->
  json_loads output = Some parsed ->
  generate service json_loads self prompt image schema
  = Some (parsed, backoff_log req 0 k ++ [GenerateContent req])
  /\ sleeps (backoff_log req 0 k ++ [GenerateContent req])
     = linear_schedule k.
Proof.
  intros req Hmodel Hrate Hmax Hservice Hparse. split.
  - unfold generate. fold (request_of self prompt image schema). fold req.
    assert (forall fuel tries calls log,
              (k < fuel)%nat ->
              tries + Z.of_nat k < max_retries (attrs self) ->
              (forall j, (j < k)%nat ->
                 service (calls + j)%nat req = RaiseResourceExhausted) ->
              service (calls + k)%nat req = Text output ->
              generate_loop service json_loads self req fuel tries calls log
              = Some (parsed,
                      log ++ backoff_log req tries k ++ [GenerateContent req]))
      as Hloop.
    { clear Hrate Hmax Hservice.
      induction k as [| k IH]; intros fuel tries calls log Hfuel Hmax Hrate Hs;
        (destruct fuel as [| fuel]; [lia |]); cbn [generate_loop];
        rewrite Hmodel;
        (destruct (Z.ltb_spec tries (max_retries (attrs self))); [| lia]).
      - rewrite Nat.add_0_r in Hs. by rewrite Hs, Hparse.
      - rewrite <- (Nat.add_0_r calls) at 1. rewrite (Hrate 0%nat) by lia.
        rewrite (IH fuel (tries + 1) (S calls)).
        + cbn [backoff_log]. by rewrite <- !app_assoc.
        + lia.
        + lia.
        + intros j Hj. rewrite <- (Hrate (S j)) by lia. f_equal. lia.
        + rewrite <- Hs. f_equal. lia. }
    rewrite (Hloop _ 0 0%nat []); [done | lia | lia | done | done].
  - rewrite sleeps_app, linear_schedule_backoff. simpl. by rewrite app_nil_r.
Qed.

(** X3. A non-empty object returned by [generate] is always the parse of
    the payload of one invocation, all earlier invocations having been
    rate-limited, and that invocation is the last effect of the call: the
    adapter never makes up or alters a result. *)
Theorem generate_result_is_parsed_payload (self : HighQualityTextProcessor)
    (prompt : string) (image : Image) (schema : Schema)
    (r : Response) (log : list Event) :
  let req := request_of self prompt image schema in
  generate service json_loads self prompt image schema = Some (r, log) ->
  r <> ∅ ->
  exists k output,
    service k req = Text output
    /\ json_loads output = Some r
    /\ (forall j, (j < k)%nat -> service j req = RaiseResourceExhausted)
    /\ Z.of_nat k < max_retries (attrs self)
    /\ log = backoff_log req 0 k ++ [GenerateContent req].
Proof.
  intros req Hgen Hne. unfold generate in Hgen.
  fold (request_of self prompt image schema) in Hgen. fold req in Hgen.
  apply generate_loop_run in Hgen as (k & tail & Hlog & Hrate & Hend).
  simpl in *.
  destruct Hend as [(_ & -> & _) | (Hlt & [(_ & _ & ->) | [(o & Ho & Hp & ->)
    | (_ & _ & ->)]])]; try done.
  exists k, o. repeat split; try done. intros j Hj. by apply Hrate.
Qed.

(** X4. With [max_retries] zero or negative the loop body never runs: the
    model is not invoked, nothing is printed or slept, and the empty object
    is returned. *)
Theorem generate_without_retries (self : HighQualityTextProcessor)
    (prompt : string) (image : Image) (schema : Schema) :
  max_retries (attrs self) <= 0 ->
  generate service json_loads self prompt image schema = Some (∅, []).
Proof.
  intros Hmax. unfold generate. cbn [generate_loop].
  by destruct (Z.ltb_spec 0 (max_retries (attrs self))); [lia |].
Qed.

End GenerateRuns.

(** ** The fragments of [text_to_spans] *)

Section Fragments.

Variable BeautifulSoup : string -> Soup.

Lemma tag_types_values (n ty : string) :
  tag_types !! n = Some ty -> ty = "bold" \/ ty = "italic" \/ ty = "math".
Proof.
  unfold tag_types. intros Hty.
  apply lookup_insert_Some in Hty as [[_ <-] | [_ Hty]]; [by left |].
  apply lookup_insert_Some in Hty as [[_ <-] | [_ Hty]]; [by right; left |].
  apply lookup_singleton_Some in Hty as [_ <-]. by right; right.
Qed.

Lemma append_empty_r (s : string) : s +:+ EmptyString = s.
Proof.
  induction s as [| c s IH]; [done |].
  change (String c (s +:+ EmptyString) = String c s). by rewrite IH.
Qed.

Lemma append_assoc (s1 s2 s3 : string) :
  (s1 +:+ s2) +:+ s3 = s1 +:+ (s2 +:+ s3).
Proof.
  induction s1 as [| c s1 IH]; [done |].
  change (String c ((s1 +:+ s2) +:+ s3) = String c (s1 +:+ (s2 +:+ s3))).
  by rewrite IH.
Qed.

Lemma concat_empty_cons (x : string) (xs : list string) :
  String.concat EmptyString (x :: xs)
  = x +:+ String.concat EmptyString xs.
Proof.
  destruct xs; [| done]. cbn [String.concat]. symmetry. apply append_empty_r.
Qed.

Lemma joined_contents_app (fs gs : list SpanDict) :
  joined_contents (fs ++ gs) = joined_contents fs +:+ joined_contents gs.
Proof.
  unfold joined_contents. induction fs as [| f fs IH]; [done |].
  cbn [app List.map]. by rewrite !concat_empty_cons, IH, append_assoc.
Qed.

(** A direct child of the root yields one fragment at most. *)
Lemma top_level_spans_cases (e : PageElement) :
  top_level_spans e = []
  \/ (exists n ty, name e = Some n /\ tag_types !! n = Some ty
                  /\ top_level_spans e = [mkSpanDict ty (get_text e)])
  \/ (exists s, string_of e = Some s /\ s <> EmptyString
               /\ top_level_spans e = [mkSpanDict "plain" s]).
Proof.
  unfold top_level_spans, visit. cbn [length Nat.eqb negb app].
  destruct (name e) as [n |] eqn:Hname; cbn [mbind option_bind].
  - destruct (tag_types !! n) as [ty |] eqn:Hty.
    + right. left. by exists n, ty.
    + destruct (string_of e) as [s |]; [| by left].
      destruct s; [by left |]. right. right. by eexists.
  - destruct (string_of e) as [s |]; [| by left].
    destruct s; [by left |]. right. right. by eexists.
Qed.

(** X5. Every fragment has one of the four types plain, bold, italic and
    math; a plain fragment is never empty (an empty text is dropped), and
    there is at most one fragment per direct child of the root. *)
Theorem text_to_spans_fragments_typed (text : string) :
  Forall (fun f => span_type f ∈ fragment_types
                   /\ (span_type f = "plain" -> span_content f <> EmptyString))
    (text_to_spans BeautifulSoup text)
  /\ (length (text_to_spans BeautifulSoup text)
      <= length (BeautifulSoup text))%nat.
Proof.
  rewrite text_to_spans_top_level.
  induction (BeautifulSoup text) as [| e soup [IHtyped IHlen]];
    [by split; [constructor |] |].
  cbn [List.flat_map]. rewrite length_app. split.
  - apply Forall_app. split; [| exact IHtyped].
    destruct (top_level_spans_cases e)
      as [-> | [(n & ty & _ & Hty & ->) | (s & _ & Hs & ->)]];
      [constructor | |]; (constructor; [| constructor]); simpl.
    + apply tag_types_values in Hty. unfold fragment_types.
      rewrite !elem_of_cons.
      destruct Hty as [-> | [-> | ->]]; (split; [tauto | done]).
    + unfold fragment_types. rewrite !elem_of_cons. split; [tauto | done].
  - destruct (top_level_spans_cases e)
      as [-> | [(n & ty & _ & _ & ->) | (s & _ & _ & ->)]]; simpl; lia.
Qed.

(** X6. When every direct child of the root is a text node or a tag with a
    registered name, no text is lost: the fragment contents, joined in
    order, are the text of the whole document (the children's [get_text],
    joined). *)
Theorem text_to_spans_preserves_text (text : string) :
  Forall text_or_registered (BeautifulSoup text) ->
  joined_contents (text_to_spans BeautifulSoup text)
  = String.concat EmptyString (List.map get_text (BeautifulSoup text)).
Proof.
  rewrite text_to_spans_top_level.
  induction (BeautifulSoup text) as [| e soup IH]; intros Hall; [done |].
  apply Forall_cons in Hall as [He Hall].
  cbn [List.flat_map List.map].
  rewrite joined_contents_app, concat_empty_cons, (IH Hall). f_equal.
  destruct e as [s | s | n cs]; [| done |].
  - by destruct s.
  - destruct He as [ty Hty]. unfold top_level_spans, visit.
    cbn [length Nat.eqb negb name mbind option_bind]. rewrite Hty.
    unfold joined_contents. simpl. done.
Qed.

(** X7. A direct child of the root that is a tag with a registered name
    always contributes exactly one fragment, at its place, with the
    registered type; its content is the text of everything below the tag,
    nested markup flattened, and may be empty. *)
Theorem registered_top_level_tag (text : string) (before after : Soup)
    (n ty : string) (cs : list PageElement) :
  BeautifulSoup text = before ++ Tag n cs :: after ->
  tag_types !! n = Some ty ->
  text_to_spans BeautifulSoup text
  = List.flat_map top_level_spans before
    ++ [mkSpanDict ty (String.concat EmptyString (List.map get_text cs))]
    ++ List.flat_map top_level_spans after.
Proof.
  intros Hsoup Hty.
  rewrite text_to_spans_top_level, Hsoup, flat_map_app. f_equal.
  cbn [List.flat_map]. f_equal.
  unfold top_level_spans, visit.
  cbn [length Nat.eqb negb name mbind option_bind]. by rewrite Hty.
Qed.

End Fragments.

Lemma text_to_spans_preserves_text_witness :
  Forall text_or_registered
    (html_parser_or_empty "<b>foo</b> <math>x=1</math> bar")
  /\ joined_contents
       (text_to_spans html_parser_or_empty "<b>foo</b> <math>x=1</math> bar")
     = "foo x=1 bar".
Proof.
  assert (Forall text_or_registered
            (html_parser_or_empty "<b>foo</b> <math>x=1</math> bar"))
    as Hall.
  { repeat constructor; by eexists. }
  split; [exact Hall |].
  exact (text_to_spans_preserves_text html_parser_or_empty _ Hall).
Defined.

Lemma registered_top_level_tag_witness :
  html_parser_or_empty "<i><b>a</b>c</i><b></b>"
  = [Tag "i" [Tag "b" [NavigableString "a"]; NavigableString "c"]]
    ++ Tag "b" [] :: []
  /\ tag_types !! "b" = Some "bold"
  /\ text_to_spans html_parser_or_empty "<i><b>a</b>c</i><b></b>"
     = [mkSpanDict "italic" "ac"; mkSpanDict "bold" EmptyString].
Proof.
  split; [reflexivity | split; [reflexivity |]].
  exact (registered_top_level_tag html_parser_or_empty
           "<i><b>a</b>c</i><b></b>"
           [Tag "i" [Tag "b" [NavigableString "a"]; NavigableString "c"]]
           [] "b" "bold" [] eq_refl eq_refl).
Defined.

(** ** Every run of [process_block_rewriting] *)

Section RewritingRuns.

Context `{Geometry}.
Variable service : nat -> Request -> Outcome.
Variable json_loads : string -> option Response.
Variable json_dumps : list string -> string.
Variable BeautifulSoup : string -> Soup.
Variable formatted_text : PageGroup -> Line -> string.

(** The child lists of the reconciled Lines, one after the other, are the
    identities of the Spans added, in the order they were added. *)
Lemma reconcile_lines_structures (text_lines : list Line) :
  forall corrected_lines page,
  length corrected_lines = length text_lines ->
  concat
    (structure
     <$> (reconcile_lines BeautifulSoup page text_lines corrected_lines).2)
  = seq (length (children page))
      (length (synthesized_lines BeautifulSoup text_lines corrected_lines)).
Proof.
  induction text_lines as [| l text_lines IH];
    intros [| c corrected_lines] page Hlen; try done.
  cbn [reconcile_lines synthesized_lines]. rewrite synthesize_spans_eq.
  set (page1 := mkPage _ _ _).
  assert (length corrected_lines = length text_lines) as Hlen'
    by (simpl in Hlen; lia).
  specialize (IH corrected_lines page1 Hlen').
  destruct (reconcile_lines _ page1 text_lines corrected_lines)
    as [page2 rest]. simpl in IH. cbn [snd fmap list_fmap concat structure].
  rewrite IH. subst page1. cbn [children app].
  rewrite !length_app, !synthesized_from_length, seq_app. done.
Qed.

(** X10. When no invocation returns a payload that parses, whatever else
    the service does (rate limits, other failures, unparseable text), the
    page and the block's Lines are left exactly as they were. *)
Theorem process_block_rewriting_without_answer
    (self : HighQualityTextProcessor) (page : PageGroup) (block : Block)
    (text_lines : list Line) :
  (forall n output,
     service n
       (request_of self
          (rewriting_prompt json_dumps self
             (List.map (formatted_text page) text_lines))
          (extract_image page block one_percent) response_schema)
     = Text output ->
     json_loads output = None) ->
  exists log,
    process_block_rewriting service json_loads json_dumps BeautifulSoup
      formatted_text self page block text_lines
    = Some (log, page, text_lines).
Proof.
  intros Hnone.
  destruct (generate_returns service json_loads self
              (rewriting_prompt json_dumps self
                 (List.map (formatted_text page) text_lines))
              (extract_image page block one_percent) response_schema)
    as [[response log] Hgen].
  exists log.
  rewrite (process_block_rewriting_eq _ _ _ _ _ _ _ _ _ _ _ Hgen).
  assert (response = ∅) as ->; [| by rewrite lookup_empty].
  unfold generate in Hgen.
  apply generate_loop_run in Hgen as (k & tail & _ & _ & Hend).
  destruct Hend as [(_ & -> & _) | (_ & [(_ & _ & ->) | [(o & Ho & Hp & _)
    | (_ & _ & ->)]])]; try done.
  simpl in Ho. apply Hnone in Ho. congruence.
Qed.

(** X11. A corrected line that parses into no fragment (the empty string,
    for one) empties the Line: after a successful reconciliation its child
    list is empty, so the Line no longer refers to any Span. *)
Theorem empty_corrected_line_empties_line
    (self : HighQualityTextProcessor) (page : PageGroup) (block : Block)
    (text_lines : list Line) (response : Response) (log : list Event)
    (cl : list string) (j : nat) (line : Line) (corrected_text : string) :
  generate service json_loads self
    (rewriting_prompt json_dumps self
       (List.map (formatted_text page) text_lines))
    (extract_image page block one_percent) response_schema
  = Some (response, log) ->
  response !! "corrected_lines" = Some cl ->
  length cl = length text_lines ->
  text_lines !! j = Some line ->
  cl !! j = Some corrected_text ->
  text_to_spans BeautifulSoup corrected_text = [] ->
  exists page' lines' line',
    process_block_rewriting service json_loads json_dumps BeautifulSoup
      formatted_text self page block text_lines
    = Some (log, page', lines')
    /\ lines' !! j = Some line'
    /\ structure line' = [].
Proof.
  intros Hgen Hcl Hlen Hline Htext Hnone.
  assert (cl <> []) as Hne by (intros ->; done).
  destruct (reconcile_lines_lookup BeautifulSoup text_lines cl page j line
              corrected_text Hline Htext)
    as (line' & Hline' & _ & _ & Hstruct & _).
  eexists _, _, line'.
  split; [exact (process_block_rewriting_applies _ _ _ _ _ _ _ _ _ _ _ _
                   Hgen Hcl Hne Hlen) |].
  split; [done |]. rewrite Hnone in Hstruct. by destruct (structure line').
Qed.

(** X12. After a successful reconciliation the child lists of the block's
    Lines, read one after the other, are exactly the identities of the
    blocks this call added to the page, each once and in the order of
    their registration: no identity is shared between Lines or repeated,
    and none refers to a block that was there before. *)
Theorem reconciled_children_enumerate_new_spans
    (self : HighQualityTextProcessor) (page : PageGroup) (block : Block)
    (text_lines : list Line) (response : Response) (log : list Event)
    (cl : list string) :
  generate service json_loads self
    (rewriting_prompt json_dumps self
       (List.map (formatted_text page) text_lines))
    (extract_image page block one_percent) response_schema
  = Some (response, log) ->
  response !! "corrected_lines" = Some cl ->
  cl <> [] ->
  length cl = length text_lines ->
  exists page' lines',
    process_block_rewriting service json_loads json_dumps BeautifulSoup
      formatted_text self page block text_lines
    = Some (log, page', lines')
    /\ concat (structure <$> lines')
       = seq (length (children page))
           (length (children page') - length (children page))
    /\ NoDup (concat (structure <$> lines')).
Proof.
  intros Hgen Hcl Hne Hlen. eexists _, _.
  split; [exact (process_block_rewriting_applies _ _ _ _ _ _ _ _ _ _ _ _
                   Hgen Hcl Hne Hlen) |].
  pose proof (reconcile_lines_structures text_lines cl page Hlen) as Hids.
  split.
  - rewrite Hids, reconcile_lines_children, length_app. f_equal. lia.
  - unfold BlockId in *. rewrite Hids. apply NoDup_seq.
Qed.

(** X13. Everything [process_block_rewriting] does to the outside world is
    done through one request: each invocation of the model carries the
    prompt built from the block's extracted lines, the crop of the block
    with the one percent margin, the schema that requires
    [corrected_lines], temperature 0, the JSON mime type and the
    configured timeout; besides these requests there are only prints and
    sleeps, and at most [max_retries] requests are sent. *)
Theorem process_block_rewriting_requests (self : HighQualityTextProcessor)
    (page : PageGroup) (block : Block) (text_lines : list Line) :
  exists log page' lines',
    process_block_rewriting service json_loads json_dumps BeautifulSoup
      formatted_text self page block text_lines
    = Some (log, page', lines')
    /\ Forall
         (effect_of_generate
            (mkRequest
               (rewriting_prompt json_dumps self
                  (List.map (formatted_text page) text_lines))
               (extract_image page block one_percent) 0 response_schema
               "application/json" (timeout (attrs self))))
         log
    /\ Z.of_nat (invocations log) <= Z.max 0 (max_retries (attrs self)).
Proof.
  destruct (generate_returns service json_loads self
              (rewriting_prompt json_dumps self
                 (List.map (formatted_text page) text_lines))
              (extract_image page block one_percent) response_schema)
    as [[response log] Hgen].
  exists log.
  rewrite (process_block_rewriting_eq _ _ _ _ _ _ _ _ _ _ _ Hgen).
  cbv zeta.
  assert (exists page' lines',
            Some (if nonempty (default [] (response !! "corrected_lines"))
                     && (length (default [] (response !! "corrected_lines"))
                         =? length text_lines)%nat
                  then
                    (log,
                     (reconcile_lines BeautifulSoup page text_lines
                        (default [] (response !! "corrected_lines"))).1,
                     (reconcile_lines BeautifulSoup page text_lines
                        (default [] (response !! "corrected_lines"))).2)
                  else (log, page, text_lines))
            = Some (log, page', lines')) as (page' & lines' & ->).
  { destruct (nonempty _ && _); eauto. }
  exists page', lines'. split; [done |].
  unfold generate in Hgen.
  apply generate_loop_run in Hgen as (k & tail & Hlog & Hrate & Hend).
  simpl in Hlog.
  assert (k = 0%nat \/ Z.of_nat k <= max_retries (attrs self)) as Hk.
  { destruct k as [| k]; [by left | right].
    destruct (Hrate k ltac:(lia)) as [_ Hb]. lia. }
  rewrite Hlog, invocations_app, backoff_log_invocations. split.
  - apply Forall_app. split; [apply backoff_log_effects |].
    destruct Hend as [(-> & _) | (_ & [(_ & -> & _) | [(o & _ & _ & ->)
      | (_ & -> & _)]])]; repeat constructor.
  - destruct Hend as [(-> & _ & _) | (Hlt & [(_ & -> & _) | [(o & _ & _ & ->)
      | (_ & -> & _)]])]; unfold invocations; simpl; lia.
Qed.

End RewritingRuns.

(** ** Construction followed by a call *)

Section ConstructedProcessor.

Context `{Geometry}.

(** X14. A processor that [__init__] has returned carries the attributes
    it was built from and has a model exactly when the feature is enabled;
    an enabled construction has configured the client with the key and
    created the model named [model_name], in this order, and a disabled one
    has done nothing. Calling such a processor hands the document to
    [rewrite_blocks] when the feature is enabled and leaves it alone
    otherwise. *)
Theorem constructed_processor_dispatches_when_enabled
    (a : Attributes) (events : list Event) (p : HighQualityTextProcessor) :
  __init__ a = (events, inr p) ->
  attrs p = a
  /\ (is_Some (model p) <-> high_quality a = true)
  /\ (high_quality a = true ->
      exists key, google_api_key a = Some key
                  /\ events = [Configure key; GenerativeModel (model_name a)])
  /\ (high_quality a = false -> events = [])
  /\ forall (Document : Type)
       (rewrite_blocks :
          HighQualityTextProcessor -> Document -> list Event * Document)
       (document : Document),
       __call__ rewrite_blocks p document
       = if high_quality a then rewrite_blocks p document
         else ([], document).
Proof.
  unfold __init__. destruct (high_quality a) eqn:Hhq; simpl.
  - destruct (google_api_key a) as [key |] eqn:Hkey; [| done].
    intros [= <- <-]. split; [done |]. split; [by split; eauto |].
    split; [intros _; by exists key |]. split; [done |].
    intros Document rewrite_blocks document. unfold __call__. simpl.
    by rewrite Hhq.
  - intros [= <- <-]. split; [done |].
    split; [split; [by intros [? ?] | done] |].
    split; [done |]. split; [done |].
    intros Document rewrite_blocks document. unfold __call__. simpl.
    by rewrite Hhq.
Qed.

End ConstructedProcessor.

(** ** The paragraph of a Caption or Handwriting block *)

Section Paragraph.

Context {Document ChildBlocks ParentStructure : Type}.
Variable super_assemble_html :
  Document -> ChildBlocks -> ParentStructure -> string.

Lemma contains_nl_append (s t : string) :
  Py.contains_nl (s +:+ t) = Py.contains_nl s || Py.contains_nl t.
Proof.
  induction s as [| c s IH]; [done |].
  change (Py.contains_nl (String c (s +:+ t))
          = Py.contains_nl (String c s) || Py.contains_nl t).
  simpl. by rewrite IH, orb_assoc.
Qed.

Lemma replace_removes_nl (s : string) :
  Py.contains_nl (Py.replace s Py.nl_char " "%char) = false.
Proof.
  induction s as [| c s IH]; [done |]. simpl. rewrite IH, orb_false_r.
  by destruct (Ascii.eqb c Py.nl_char) eqn:Hc.
Qed.

Lemma length_append (s t : string) :
  String.length (s +:+ t) = (String.length s + String.length t)%nat.
Proof.
  induction s as [| c s IH]; [done |].
  change (S (String.length (s +:+ t))
          = S (String.length s + String.length t)). by rewrite IH.
Qed.

(** X15. The HTML that a Caption or a Handwriting block assembles is a
    single line: it contains no line break, whatever text the superclass
    assembled; and it is exactly seven characters longer than that
    text. *)
Theorem assemble_html_is_one_line (document : Document)
    (child_blocks : ChildBlocks) (parent_structure : ParentStructure) :
  Py.contains_nl
    (Caption.assemble_html super_assemble_html document child_blocks
       parent_structure) = false
  /\ Py.contains_nl
       (Handwriting.assemble_html super_assemble_html document child_blocks
          parent_structure) = false
  /\ String.length
       (Caption.assemble_html super_assemble_html document child_blocks
          parent_structure)
     = (String.length
          (super_assemble_html document child_blocks parent_structure)
        + 7)%nat
  /\ String.length
       (Handwriting.assemble_html super_assemble_html document child_blocks
          parent_structure)
     = (String.length
          (super_assemble_html document child_blocks parent_structure)
        + 7)%nat.
Proof.
  unfold Caption.assemble_html, Handwriting.assemble_html. cbv zeta.
  rewrite !contains_nl_append, replace_removes_nl, !length_append,
    replace_length.
  repeat split; simpl; lia.
Qed.

End Paragraph.

(** ** Concrete runs for the further properties *)

Lemma generate_succeeds_after_retries_witness :
  model Sample.processor = Some "gemini-1.5-flash"
  /\ (forall j, (j < 1)%nat ->
       Sample.recovering_service j (Sample.request [])
       = RaiseResourceExhausted)
  /\ 1 < max_retries (attrs Sample.processor)
  /\ Sample.recovering_service 1 (Sample.request []) = Text "payload"
  /\ Sample.fixed_loads Sample.one_line "payload" = Some Sample.one_line
  /\ generate Sample.recovering_service (Sample.fixed_loads Sample.one_line)
       Sample.processor (rewriting_prompt Sample.dumps Sample.processor [])
       tt response_schema
     = Some (Sample.one_line,
             [GenerateContent (Sample.request []); Print; Sleep 2;
              GenerateContent (Sample.request [])]).
Proof.
  assert (forall j, (j < 1)%nat ->
            Sample.recovering_service j (Sample.request [])
            = RaiseResourceExhausted) as Hrate.
  { intros j Hj. destruct j; [reflexivity | lia]. }
  split; [reflexivity | split; [exact Hrate |]].
  split; [reflexivity | split; [reflexivity | split; [reflexivity |]]].
  exact (proj1 (generate_succeeds_after_retries (H := unit_geometry)
                  Sample.recovering_service
                  (Sample.fixed_loads Sample.one_line) Sample.processor
                  "gemini-1.5-flash"
                  (rewriting_prompt Sample.dumps Sample.processor []) tt
                  response_schema 1 "payload" Sample.one_line
                  eq_refl Hrate eq_refl eq_refl eq_refl)).
Defined.

Lemma generate_result_is_parsed_payload_witness :
  generate Sample.recovering_service (Sample.fixed_loads Sample.one_line)
    Sample.processor (rewriting_prompt Sample.dumps Sample.processor [])
    tt response_schema
  = Some (Sample.one_line,
          [GenerateContent (Sample.request []); Print; Sleep 2;
           GenerateContent (Sample.request [])])
  /\ Sample.one_line <> ∅
  /\ exists k output,
       Sample.recovering_service k (Sample.request []) = Text output
       /\ Sample.fixed_loads Sample.one_line output = Some Sample.one_line.
Proof.
  assert (Sample.one_line <> ∅) as Hne.
  { intros Heq.
    assert (Sample.one_line !! "corrected_lines" = None) as Hnone
      by (rewrite Heq; apply lookup_empty).
    discriminate Hnone. }
  split; [reflexivity | split; [exact Hne |]].
  destruct (generate_result_is_parsed_payload (H := unit_geometry)
              Sample.recovering_service
              (Sample.fixed_loads Sample.one_line) Sample.processor
              (rewriting_prompt Sample.dumps Sample.processor []) tt
              response_schema Sample.one_line _ eq_refl Hne)
    as (k & output & Hservice & Hparse & _).
  exists k, output. split; [exact Hservice | exact Hparse].
Defined.

Lemma generate_without_retries_witness :
  max_retries (attrs Sample.no_retries) <= 0
  /\ generate Sample.answering_service (Sample.fixed_loads Sample.one_line)
       Sample.no_retries "p" tt response_schema
     = Some (∅, []).
Proof.
  split; [discriminate |].
  apply (generate_without_retries (H := unit_geometry)).
  discriminate.
Defined.


Lemma process_block_rewriting_without_answer_witness :
  (forall n output,
     Sample.flaky_service n (Sample.request ["a b"]) = Text output ->
     Sample.never_loads output = None)
  /\ exists log,
       process_block_rewriting Sample.flaky_service Sample.never_loads
         Sample.dumps html_parser_or_empty Sample.line_text Sample.processor
         Sample.old_page Sample.block [Sample.old_line]
       = Some (log, Sample.old_page, [Sample.old_line]).
Proof.
  assert (forall n output,
            Sample.flaky_service n (Sample.request ["a b"]) = Text output ->
            Sample.never_loads output = None) as Hnone
    by (intros n output _; reflexivity).
  split; [exact Hnone |].
  exact (process_block_rewriting_without_answer (H := unit_geometry)
           Sample.flaky_service Sample.never_loads Sample.dumps
           html_parser_or_empty Sample.line_text Sample.processor
           Sample.old_page Sample.block [Sample.old_line] Hnone).
Defined.

Lemma empty_corrected_line_empties_line_witness :
  Sample.one_empty_line !! "corrected_lines" = Some [EmptyString]
  /\ text_to_spans html_parser_or_empty EmptyString = []
  /\ structure Sample.old_line = [0%nat]
  /\ exists page' lines' line',
       process_block_rewriting Sample.answering_service
         (Sample.fixed_loads Sample.one_empty_line) Sample.dumps
         html_parser_or_empty Sample.line_text Sample.processor
         Sample.old_page Sample.block [Sample.old_line]
       = Some ([GenerateContent (Sample.request ["a b"])], page', lines')
       /\ lines' !! 0%nat = Some line'
       /\ structure line' = [].
Proof.
  split; [reflexivity | split; [reflexivity | split; [reflexivity |]]].
  exact (empty_corrected_line_empties_line (H := unit_geometry)
           Sample.answering_service
           (Sample.fixed_loads Sample.one_empty_line) Sample.dumps
           html_parser_or_empty Sample.line_text Sample.processor
           Sample.old_page Sample.block [Sample.old_line]
           Sample.one_empty_line
           [GenerateContent (Sample.request ["a b"])] [EmptyString]
           0%nat Sample.old_line EmptyString
           eq_refl eq_refl eq_refl eq_refl eq_refl eq_refl).
Defined.

Lemma reconciled_children_enumerate_new_spans_witness :
  Sample.one_line !! "corrected_lines" = Some [Sample.two_fragments]
  /\ [Sample.two_fragments] <> []
  /\ length [Sample.two_fragments] = length [Sample.old_line]
  /\ exists page' lines',
       process_block_rewriting Sample.answering_service
         (Sample.fixed_loads Sample.one_line) Sample.dumps
         html_parser_or_empty Sample.line_text Sample.processor
         Sample.old_page Sample.block [Sample.old_line]
       = Some ([GenerateContent (Sample.request ["a b"])], page', lines')
       /\ concat (structure <$> lines')
          = seq (length (children Sample.old_page))
              (length (children page') - length (children Sample.old_page)).
Proof.
  split; [reflexivity | split; [discriminate | split; [reflexivity |]]].
  destruct (reconciled_children_enumerate_new_spans (H := unit_geometry)
              Sample.answering_service (Sample.fixed_loads Sample.one_line)
              Sample.dumps html_parser_or_empty Sample.line_text
              Sample.processor Sample.old_page Sample.block
              [Sample.old_line] Sample.one_line
              [GenerateContent (Sample.request ["a b"])]
              [Sample.two_fragments] eq_refl eq_refl
              ltac:(discriminate) eq_refl)
    as (page' & lines' & Hrun & Hids & _).
  exists page', lines'. split; [exact Hrun | exact Hids].
Defined.

Lemma constructed_processor_dispatches_when_enabled_witness :
  __init__ (H := unit_geometry) Sample.attributes
  = ([Configure "key"; GenerativeModel "gemini-1.5-flash"],
     inr Sample.processor)
  /\ is_Some (model Sample.processor).
Proof.
  split; [reflexivity |].
  destruct (constructed_processor_dispatches_when_enabled
              (H := unit_geometry) Sample.attributes
              [Configure "key"; GenerativeModel "gemini-1.5-flash"]
              Sample.processor eq_refl) as (_ & Hmodel & _).
  apply Hmodel. reflexivity.
Defined.

(** ** Responses of any shape *)

Section AnyJsonRuns.

Context `{Geometry}.
Variable service : nat -> Request -> Outcome.
Variable json_loads : string -> option AnyJson.PyValue.
Variable json_dumps : list string -> string.
Variable BeautifulSoup : string -> Soup.
Variable parse_other : AnyJson.PyValue -> option Soup.
Variable code_points : string -> list string.
Variable formatted_text : PageGroup -> Line -> string.

Lemma anyjson_generate_loop_returns (self : HighQualityTextProcessor)
    (req : Request) (fuel : nat) :
  forall tries calls log,
  (Z.to_nat (max_retries (attrs self) - tries) < fuel)%nat ->
  exists r,
    AnyJson.generate_loop service json_loads self req fuel tries calls log
    = Some r.
Proof.
  induction fuel as [| fuel IH]; intros tries calls log Hfuel; [lia |].
  simpl. destruct (Z.ltb_spec tries (max_retries (attrs self))); [| eauto].
  destruct (model self); [| eauto].
  destruct (service calls req) as [output | |]; [| | eauto].
  - destruct (json_loads output); eauto.
  - apply IH. lia.
Qed.

(** [generate] always returns, whatever the payloads hold. *)
Lemma anyjson_generate_returns (self : HighQualityTextProcessor)
    (prompt : string) (image : Image) (schema : Schema) :
  exists r,
    AnyJson.generate service json_loads self prompt image schema = Some r.
Proof. unfold AnyJson.generate. apply anyjson_generate_loop_returns. lia. Qed.

Lemma dict_get_nonempty (items : list (string * AnyJson.PyValue))
    (key : string) (v : AnyJson.PyValue) :
  AnyJson.dict_get items key = Some v -> nonempty items = true.
Proof. by destruct items. Qed.

Lemma array_without_key_contains (items : list AnyJson.PyValue)
    (key : string) :
  Forall (fun v => v <> AnyJson.PyStr key) items ->
  existsb (AnyJson.equals_str key) items = false.
Proof.
  induction 1 as [| v items Hv _ IH]; [done |].
  simpl. rewrite IH, orb_false_r.
  destruct v as [| | | | s | |]; try done. simpl.
  destruct (String.eqb_spec s key) as [-> | Hne]; done.
Qed.

(** The value bound to [corrected_lines] for the responses that are not
    accepted: the empty list, or the field itself. *)
Lemma unaccepted_corrected_lines (n : nat) (response : AnyJson.PyValue) :
  AnyJson.Unaccepted code_points n response ->
  exists corrected,
    AnyJson.corrected_lines_of response = inr corrected
    /\ (AnyJson.truthy corrected = false
        \/ exists m, AnyJson.len code_points corrected = inr m /\ m <> n).
Proof.
  unfold AnyJson.corrected_lines_of.
  intros [v Hfalsy | items Hnone | s Hsub | items Hall | items v Hget Hfalsy
          | items v m Hget Hlen Hne].
  - rewrite Hfalsy. exists (AnyJson.PyList []). split; [done | by left].
  - exists (AnyJson.PyList []). split; [| by left].
    destruct (AnyJson.truthy (AnyJson.PyDict items)); [| done].
    simpl. rewrite Hnone.
    by rewrite bool_decide_eq_false_2 by (by intros [? ?]).
  - exists (AnyJson.PyList []). split; [| by left].
    destruct (AnyJson.truthy (AnyJson.PyStr s)); [| done].
    simpl. by rewrite Hsub.
  - exists (AnyJson.PyList []). split; [| by left].
    destruct (AnyJson.truthy (AnyJson.PyList items)); [| done].
    simpl. by rewrite array_without_key_contains.
  - exists v. split; [| by left]. simpl.
    rewrite (dict_get_nonempty _ _ _ Hget), Hget.
    by rewrite bool_decide_eq_true_2 by eauto.
  - exists v. split; [| right; by exists m]. simpl.
    rewrite (dict_get_nonempty _ _ _ Hget), Hget.
    by rewrite bool_decide_eq_true_2 by eauto.
Qed.

(** C3, amended. If the response is a falsy value, an object without the
    [corrected_lines] field, a string that does not contain that key or an
    array without an entry equal to it (the shapes on which the field is
    missing and the two tests of line 164 do not raise), or an object whose
    [corrected_lines] value is falsy or has a length different from the
    number of extracted lines, then [process_block_rewriting] returns
    normally and the page and the block's Lines, child lists included, are
    exactly what they were. *)
Theorem invalid_response_leaves_lines (self : HighQualityTextProcessor)
    (page : PageGroup) (block : Block) (text_lines : list Line)
    (response : AnyJson.PyValue) (log : list Event) :
  AnyJson.generate service json_loads self
    (rewriting_prompt json_dumps self
       (List.map (formatted_text page) text_lines))
    (extract_image page block one_percent) response_schema
  = Some (response, log) ->
  AnyJson.Unaccepted code_points
    (length (List.map (formatted_text page) text_lines)) response ->
  AnyJson.process_block_rewriting service json_loads json_dumps
    BeautifulSoup parse_other code_points formatted_text self page block
    text_lines
  = Some (log, page, text_lines, AnyJson.Returned).
Proof.
  intros Hgen Hbad. unfold AnyJson.process_block_rewriting.
  rewrite Hgen. simpl.
  destruct (unaccepted_corrected_lines _ _ Hbad)
    as (corrected & -> & [Hfalsy | (m & Hlen & Hne)]).
  - by rewrite Hfalsy.
  - destruct (AnyJson.truthy corrected); [| done].
    rewrite Hlen. apply Nat.eqb_neq in Hne. by rewrite Hne.
Qed.


(** The loop stops at the first entry on which the parser raises. *)
Lemma anyjson_reconcile_interrupted (lines_before : list Line) :
  forall before page line lines_after bad after,
  length lines_before = length before ->
  AnyJson.text_to_spans BeautifulSoup parse_other bad = None ->
  AnyJson.reconcile_lines BeautifulSoup parse_other page
    (lines_before ++ line :: lines_after)
    ((AnyJson.PyStr <$> before) ++ bad :: after)
  = ((reconcile_lines BeautifulSoup page lines_before before).1,
     (reconcile_lines BeautifulSoup page lines_before before).2
     ++ mkLine (line_polygon line) (line_page_id line) [] :: lines_after,
     AnyJson.Raised AnyJson.ParserError).
Proof.
  induction lines_before as [| l lines_before IH];
    intros [| c before] page line lines_after bad after Hlen Hbad;
    try done.
  - cbn [app fmap list_fmap AnyJson.reconcile_lines reconcile_lines].
    by rewrite Hbad.
  - cbn [app fmap list_fmap AnyJson.reconcile_lines reconcile_lines
         AnyJson.text_to_spans].
    destruct (synthesize_spans _ _ _ _ _) as [page1 l1].
    rewrite (IH before page1 line lines_after bad after);
      [| simpl in Hlen; lia | done].
    by destruct (reconcile_lines _ page1 lines_before before).
Qed.

(** When the loop ends normally over as many entries as Lines, the child
    lists of the Lines enumerate the blocks it added. *)
Lemma anyjson_reconcile_returned (text_lines : list Line) :
  forall corrected page page' lines',
  AnyJson.reconcile_lines BeautifulSoup parse_other page text_lines corrected
  = (page', lines', AnyJson.Returned) ->
  length corrected = length text_lines ->
  exists new,
    children page' = children page ++ new
    /\ concat (structure <$> lines')
       = seq (length (children page)) (length new).
Proof.
  induction text_lines as [| l text_lines IH];
    intros [| v corrected] page page' lines' Hrun Hlen; try done.
  - injection Hrun as <- <-. exists []. by rewrite app_nil_r.
  - cbn [AnyJson.reconcile_lines] in Hrun.
    destruct (AnyJson.text_to_spans _ _ v) as [fs |]; [| done].
    rewrite synthesize_spans_eq in Hrun.
    destruct (AnyJson.reconcile_lines _ _ _ text_lines corrected)
      as [[page2 rest] completion] eqn:Hrest.
    injection Hrun as <- <- ->.
    apply IH in Hrest as (new & Hch & Hids); [| simpl in Hlen; lia].
    cbn [children] in Hch, Hids.
    exists (synthesized_from
              (mkLine (line_polygon l) (line_page_id l) []) (length fs) 0 fs
            ++ new).
    split; [by rewrite Hch, <- app_assoc |].
    cbn [fmap list_fmap concat structure app].
    unfold BlockId in *.
    rewrite Hids, !length_app, synthesized_from_length, seq_app. done.
Qed.

Lemma len_iterate (v : AnyJson.PyValue) (n : nat) :
  AnyJson.len code_points v = inr n ->
  length (AnyJson.iterate code_points v) = n.
Proof.
  destruct v; simpl; intros [= <-]; by rewrite ?length_fmap.
Qed.

(** X8. A corrected line that is not a string and on which the parser
    raises interrupts the reconciliation of an otherwise accepted
    response: the call raises, the Lines before that entry have been
    rewritten, the Line of that entry has lost its child list, and the
    Lines after it are as they were. *)
Theorem non_string_entry_interrupts_reconciliation
    (self : HighQualityTextProcessor) (page : PageGroup) (block : Block)
    (lines_before lines_after : list Line) (line : Line)
    (items : list (string * AnyJson.PyValue)) (log : list Event)
    (before : list string) (bad : AnyJson.PyValue)
    (after : list AnyJson.PyValue) :
  AnyJson.generate service json_loads self
    (rewriting_prompt json_dumps self
       (List.map (formatted_text page)
          (lines_before ++ line :: lines_after)))
    (extract_image page block one_percent) response_schema
  = Some (AnyJson.PyDict items, log) ->
  AnyJson.dict_get items "corrected_lines"
  = Some (AnyJson.PyList ((AnyJson.PyStr <$> before) ++ bad :: after)) ->
  AnyJson.text_to_spans BeautifulSoup parse_other bad = None ->
  length lines_before = length before ->
  length lines_after = length after ->
  AnyJson.process_block_rewriting service json_loads json_dumps
    BeautifulSoup parse_other code_points formatted_text self page block
    (lines_before ++ line :: lines_after)
  = Some (log,
          (reconcile_lines BeautifulSoup page lines_before before).1,
          (reconcile_lines BeautifulSoup page lines_before before).2
          ++ mkLine (line_polygon line) (line_page_id line) []
             :: lines_after,
          AnyJson.Raised AnyJson.ParserError).
Proof.
  intros Hgen Hget Hbad Hbefore Hafter.
  unfold AnyJson.process_block_rewriting. rewrite Hgen. simpl.
  unfold AnyJson.corrected_lines_of. simpl.
  rewrite (dict_get_nonempty _ _ _ Hget), Hget.
  rewrite bool_decide_eq_true_2 by eauto.
  assert (AnyJson.truthy
            (AnyJson.PyList ((AnyJson.PyStr <$> before) ++ bad :: after))
          = true) as -> by (by destruct before).
  simpl.
  assert (length ((AnyJson.PyStr <$> before) ++ bad :: after)
          = length (List.map (formatted_text page)
                      (lines_before ++ line :: lines_after))) as ->.
  { rewrite length_map, !length_app, length_fmap. simpl. lia. }
  rewrite Nat.eqb_refl.
  by rewrite (anyjson_reconcile_interrupted _ _ _ _ _ _ _ Hbefore Hbad).
Qed.

(** X9. When [process_block_rewriting] returns normally, the block has
    been corrected as a whole or not at all: either the page and all the
    Lines are exactly as before, or the block has Lines and the child list
    of every one of them holds only identities of blocks added by this
    call. *)
Theorem process_block_rewriting_all_or_nothing
    (self : HighQualityTextProcessor) (page : PageGroup) (block : Block)
    (text_lines : list Line) (log : list Event) (page' : PageGroup)
    (lines' : list Line) :
  AnyJson.process_block_rewriting service json_loads json_dumps
    BeautifulSoup parse_other code_points formatted_text self page block
    text_lines
  = Some (log, page', lines', AnyJson.Returned) ->
  (page' = page /\ lines' = text_lines)
  \/ (text_lines <> []
      /\ Forall (fun l' =>
                   Forall (fun id => (length (children page) <= id
                                      < length (children page'))%nat)
                     (structure l'))
           lines').
Proof.
  unfold AnyJson.process_block_rewriting.
  destruct (AnyJson.generate _ _ _ _ _ _) as [[response log0] |]; [| done].
  simpl. destruct (AnyJson.corrected_lines_of response) as [e | corrected];
    [done |].
  destruct (AnyJson.truthy corrected); [| intros [= <- <- <-]; by left].
  destruct (AnyJson.len code_points corrected) as [e | n] eqn:Hlen; [done |].
  rewrite length_map.
  destruct (Nat.eqb_spec n (length text_lines)) as [-> | Hne];
    [| intros [= <- <- <-]; by left].
  apply len_iterate in Hlen.
  destruct (AnyJson.reconcile_lines _ _ page text_lines _)
    as [[page2 lines2] completion] eqn:Hrun.
  intros [= <- <- <- ->].
  destruct text_lines as [| l text_lines].
  { left. simpl in Hrun. by injection Hrun as <- <-. }
  right. split; [done |].
  apply anyjson_reconcile_returned in Hrun as (new & Hch & Hids); [| done].
  apply Forall_forall. intros l' Hl'. apply Forall_forall. intros id Hid.
  assert (id ∈ seq (length (children page)) (length new)) as Hin.
  { rewrite <- Hids. apply list_elem_of_In, in_concat.
    exists (structure l'). split; [| by apply list_elem_of_In].
    apply list_elem_of_In, list_elem_of_fmap. by exists l'. }
  apply elem_of_seq in Hin. rewrite Hch, length_app. lia.
Qed.

End AnyJsonRuns.

(** ** Responses of the contracted shape *)

Section SchemaHonoured.

Context `{Geometry}.
Variable service : nat -> Request -> Outcome.
Variable json_loads : string -> option AnyJson.PyValue.
Variable json_loads_t : string -> option Response.
Variable json_dumps : list string -> string.
Variable BeautifulSoup : string -> Soup.
Variable parse_other : AnyJson.PyValue -> option Soup.
Variable code_points : string -> list string.
Variable formatted_text : PageGroup -> Line -> string.





End SchemaHonoured.

(** ** Concrete runs on any JSON value *)

Lemma invalid_response_leaves_lines_witness :
  AnyJson.generate Sample.answering_service
    (Sample.loads_value (AnyJson.PyDict [("lines", AnyJson.PyList [])]))
    Sample.processor
    (rewriting_prompt Sample.dumps Sample.processor
       (List.map (Sample.line_text Sample.old_page) [Sample.old_line]))
    (extract_image Sample.old_page Sample.block one_percent) response_schema
  = Some (AnyJson.PyDict [("lines", AnyJson.PyList [])],
          [GenerateContent (Sample.request ["a b"])])
  /\ AnyJson.Unaccepted Sample.ascii_points
       (length (List.map (Sample.line_text Sample.old_page) [Sample.old_line]))
       (AnyJson.PyDict [("lines", AnyJson.PyList [])])
  /\ AnyJson.process_block_rewriting Sample.answering_service
       (Sample.loads_value (AnyJson.PyDict [("lines", AnyJson.PyList [])]))
       Sample.dumps html_parser_or_empty Sample.parser_raises
       Sample.ascii_points Sample.line_text Sample.processor Sample.old_page
       Sample.block [Sample.old_line]
     = Some ([GenerateContent (Sample.request ["a b"])], Sample.old_page,
             [Sample.old_line], AnyJson.Returned).
Proof.
  assert (AnyJson.Unaccepted Sample.ascii_points
            (length (List.map (Sample.line_text Sample.old_page)
                       [Sample.old_line]))
            (AnyJson.PyDict [("lines", AnyJson.PyList [])])) as Hbad
    by (apply AnyJson.object_without_field; reflexivity).
  split; [reflexivity | split; [exact Hbad |]].
  exact (invalid_response_leaves_lines (H := unit_geometry)
           Sample.answering_service
           (Sample.loads_value (AnyJson.PyDict [("lines", AnyJson.PyList [])]))
           Sample.dumps html_parser_or_empty Sample.parser_raises
           Sample.ascii_points Sample.line_text Sample.processor
           Sample.old_page Sample.block [Sample.old_line] _ _ eq_refl Hbad).
Defined.

(** C3 as stated fails: the payloads [7] and [["corrected_lines"]] parse
    into responses without a [corrected_lines] field, and on both the call
    raises a [TypeError] (the first on the membership test, the second on
    the indexing), the Lines being left as they were. *)
Lemma ill_shaped_response_raises :
  AnyJson.process_block_rewriting Sample.answering_service
    (Sample.loads_value Sample.seven) Sample.dumps html_parser_or_empty
    Sample.parser_raises Sample.ascii_points Sample.line_text
    Sample.processor Sample.old_page Sample.block [Sample.old_line]
  = Some ([GenerateContent (Sample.request ["a b"])], Sample.old_page,
          [Sample.old_line], AnyJson.Raised AnyJson.TypeError)
  /\ AnyJson.process_block_rewriting Sample.answering_service
       (Sample.loads_value Sample.key_in_array) Sample.dumps
       html_parser_or_empty Sample.parser_raises Sample.ascii_points
       Sample.line_text Sample.processor Sample.old_page Sample.block
       [Sample.old_line]
     = Some ([GenerateContent (Sample.request ["a b"])], Sample.old_page,
             [Sample.old_line], AnyJson.Raised AnyJson.TypeError).
Proof. split; vm_compute; reflexivity. Qed.

Lemma non_string_entry_interrupts_reconciliation_witness :
  AnyJson.dict_get Sample.mixed_items "corrected_lines"
  = Some (AnyJson.PyList
            ((AnyJson.PyStr <$> ["<b>x</b>"])
             ++ AnyJson.PyInt 7 :: [AnyJson.PyStr "c"]))
  /\ AnyJson.text_to_spans html_parser_or_empty Sample.parser_raises
       (AnyJson.PyInt 7) = None
  /\ AnyJson.process_block_rewriting Sample.answering_service
       (Sample.loads_value (AnyJson.PyDict Sample.mixed_items)) Sample.dumps
       html_parser_or_empty Sample.parser_raises Sample.ascii_points
       Sample.line_text Sample.processor Sample.old_page Sample.block
       ([Sample.old_line] ++ Sample.second_line :: [Sample.third_line])
     = Some ([GenerateContent (Sample.request ["a b"; "a b"; "a b"])],
             (reconcile_lines html_parser_or_empty Sample.old_page
                [Sample.old_line] ["<b>x</b>"]).1,
             (reconcile_lines html_parser_or_empty Sample.old_page
                [Sample.old_line] ["<b>x</b>"]).2
             ++ mkLine (line_polygon Sample.second_line)
                  (line_page_id Sample.second_line) []
                :: [Sample.third_line],
             AnyJson.Raised AnyJson.ParserError).
Proof.
  split; [reflexivity | split; [reflexivity |]].
  exact (non_string_entry_interrupts_reconciliation (H := unit_geometry)
           Sample.answering_service
           (Sample.loads_value (AnyJson.PyDict Sample.mixed_items))
           Sample.dumps html_parser_or_empty Sample.parser_raises
           Sample.ascii_points Sample.line_text Sample.processor
           Sample.old_page Sample.block [Sample.old_line]
           [Sample.third_line] Sample.second_line Sample.mixed_items
           [GenerateContent (Sample.request ["a b"; "a b"; "a b"])]
           ["<b>x</b>"] (AnyJson.PyInt 7) [AnyJson.PyStr "c"]
           eq_refl eq_refl eq_refl eq_refl eq_refl).
Defined.

Lemma process_block_rewriting_all_or_nothing_witness :
  exists log page' lines',
    AnyJson.process_block_rewriting Sample.answering_service
      (Sample.loads_value Sample.one_line_value) Sample.dumps
      html_parser_or_empty Sample.parser_raises Sample.ascii_points
      Sample.line_text Sample.processor Sample.old_page Sample.block
      [Sample.old_line]
    = Some (log, page', lines', AnyJson.Returned)
    /\ ((page' = Sample.old_page /\ lines' = [Sample.old_line])
        \/ ([Sample.old_line] <> []
            /\ Forall (fun l' =>
                         Forall (fun id =>
                                   (length (children Sample.old_page) <= id
                                    < length (children page'))%nat)
                           (structure l'))
                 lines')).
Proof.
  eexists _, _, _. split; [vm_compute; reflexivity |].
  eapply (process_block_rewriting_all_or_nothing (H := unit_geometry)
            Sample.answering_service
            (Sample.loads_value Sample.one_line_value) Sample.dumps
            html_parser_or_empty Sample.parser_raises Sample.ascii_points
            Sample.line_text Sample.processor Sample.old_page Sample.block
            [Sample.old_line]).
  vm_compute. reflexivity.
Defined.

